(** * AIS to MQTT bridge: the payload decoder and the sentence parser

    A shallow embedding of [src/ais_mqtt_bridge.py] (class [AISMQTTBridge],
    methods [decode_payload], [decode_string] and [parse_nmea]) and the
    properties of the design document that can be stated over it.

    Conventions of the embedding.
    - A Python [str] is a [string]; a character is its code point, so the
      model covers text whose code points are below 256.
    - A Python [int] is a [Z].
    - The result of [int / float_literal] is the exact rational ([Q]) with
      the literal as denominator; binary64 rounding is not modelled.
    - A Python [dict] is an association list in insertion order.
    - A raised exception is the [Raise] case of [result]; [try ... except
      Exception: return None] is [try_except]. *)

From Stdlib Require Import ZArith QArith List Ascii String Bool Lia.
Import ListNotations.

Local Open Scope string_scope.
Local Open Scope Z_scope.

(** ** Python built-ins used by the bridge *)

Module Py.

(** Exceptions raised inside the two [try] blocks. *)
Inductive exception : Type :=
| ValueError.

Inductive result (A : Type) : Type :=
| Ok (a : A)
| Raise (e : exception).
Arguments Ok {A} a.
Arguments Raise {A} e.

Definition bind {A B : Type} (r : result A) (k : A -> result B) : result B :=
  match r with
  | Ok a => k a
  | Raise e => Raise e
  end.

(** [try: return body except Exception: return None] *)
Definition try_except {A : Type} (r : result A) : option A :=
  match r with
  | Ok a => Some a
  | Raise _ => None
  end.

(** [ord(c)] *)
Definition ord (c : ascii) : Z := Z.of_N (N_of_ascii c).

(** [chr(v)]; the model has the code points below 256 only. *)
Definition chr (v : Z) : result ascii :=
  if (0 <=? v) && (v <? 256) then Ok (ascii_of_N (Z.to_N v))
  else Raise ValueError.

(** [s[a:b]] for constant bounds [0 <= a <= b]: slicing clamps to the
    length of [s] and never raises. *)
Definition slice (s : string) (a b : nat) : string :=
  substring a (b - a) s.

(** [s.startswith(c)] for a one-character prefix. *)
Definition startswith (s : string) (c : ascii) : bool :=
  match s with
  | String c' _ => Ascii.eqb c' c
  | EmptyString => false
  end.

(** [s.split(sep)] for a one-character separator: one piece more than
    there are separators, empty pieces kept. *)
Fixpoint split (sep : ascii) (s : string) : list string :=
  match s with
  | EmptyString => [EmptyString]
  | String c s' =>
      if Ascii.eqb c sep then EmptyString :: split sep s'
      else match split sep s' with
           | piece :: pieces => String c piece :: pieces
           | [] => [String c EmptyString]
           end
  end.

(** The white space [int()] skips around a literal: the characters C's
    [isspace] accepts, and the Unicode spaces above 127, which CPython turns
    into blanks first (below 256 these are 133 and 160). The separators 28 to
    31 are not skipped. *)
Definition is_int_space (c : ascii) : bool :=
  let n := ord c in
  ((9 <=? n) && (n <=? 13)) || (n =? 32) || (n =? 133) || (n =? 160).

(** [str.isspace] on one character (code points below 256); [str.strip()]
    removes these. *)
Definition is_py_space (c : ascii) : bool :=
  let n := ord c in
  ((9 <=? n) && (n <=? 13)) || ((28 <=? n) && (n <=? 32))
  || (n =? 133) || (n =? 160).

Fixpoint lstrip (p : ascii -> bool) (s : string) : string :=
  match s with
  | EmptyString => EmptyString
  | String c s' => if p c then lstrip p s' else s
  end.

Fixpoint rstrip (p : ascii -> bool) (s : string) : string :=
  match s with
  | EmptyString => EmptyString
  | String c s' =>
      match rstrip p s' with
      | EmptyString => if p c then EmptyString else String c EmptyString
      | r => String c r
      end
  end.

(** [s.strip(chars)] and [s.strip()]: the characters satisfying [p] are
    removed from both ends. *)
Definition strip (p : ascii -> bool) (s : string) : string :=
  rstrip p (lstrip p s).

(** The value of a digit character, for bases up to 36. *)
Definition digit_val (c : ascii) : option Z :=
  let n := ord c in
  if (48 <=? n) && (n <=? 57) then Some (n - 48)
  else if (97 <=? n) && (n <=? 122) then Some (n - 87)
  else if (65 <=? n) && (n <=? 90) then Some (n - 55)
  else None.

(** The digits of an [int()] literal: single underscores are accepted
    between digits. [prev_us] records that the previous character was an
    underscore. *)
Fixpoint scan_digits (base acc : Z) (prev_us : bool) (s : string)
  : option Z :=
  match s with
  | EmptyString => if prev_us then None else Some acc
  | String c s' =>
      if Ascii.eqb c "_" then
        if prev_us then None else scan_digits base acc true s'
      else
        match digit_val c with
        | Some d =>
            if d <? base then scan_digits base (acc * base + d) false s'
            else None
        | None => None
        end
  end.

Definition parse_digits (base : Z) (s : string) : option Z :=
  match s with
  | EmptyString => None
  | String c _ => if Ascii.eqb c "_" then None else scan_digits base 0 false s
  end.

(** With an explicit base 2 the literal may carry a [0b] prefix, which
    one underscore may follow. *)
Definition skip_prefix (base : Z) (s : string) : string :=
  match s with
  | String c0 (String c1 r) =>
      if (base =? 2) && Ascii.eqb c0 "0"
         && (Ascii.eqb c1 "b" || Ascii.eqb c1 "B")
      then match r with
           | String c2 r' => if Ascii.eqb c2 "_" then r' else r
           | EmptyString => r
           end
      else s
  | _ => s
  end.

(** [int(s, base)] for base 2 and base 10: surrounding white space, an
    optional sign, then the digits. [None] stands for [ValueError]. The
    limit CPython puts on the number of decimal digits (4300 by default) is
    not modelled. *)
Definition int_literal (base : Z) (s : string) : option Z :=
  let s1 := strip is_int_space s in
  let '(neg, s2) :=
    match s1 with
    | String c r =>
        if Ascii.eqb c "-" then (true, r)
        else if Ascii.eqb c "+" then (false, r)
        else (false, s1)
    | EmptyString => (false, s1)
    end in
  match parse_digits base (skip_prefix base s2) with
  | Some v => Some (if neg then - v else v)
  | None => None
  end.

Definition int (base : Z) (s : string) : result Z :=
  match int_literal base s with
  | Some v => Ok v
  | None => Raise ValueError
  end.

(** The binary digits of a positive number, most significant first. *)
Fixpoint bin_pos (p : positive) : string :=
  match p with
  | xH => "1"
  | xO q => bin_pos q ++ "0"
  | xI q => bin_pos q ++ "1"
  end.

Definition bin_abs (v : Z) : string :=
  match v with
  | Z0 => "0"
  | Zpos p => bin_pos p
  | Zneg p => bin_pos p
  end.

Fixpoint zeros (n : nat) : string :=
  match n with
  | O => EmptyString
  | S n' => String "0" (zeros n')
  end.

(** [format(v, '06b')]: binary digits, padded with zeros after the sign
    to a total width of 6; wider numbers are not cut. *)
Definition format_06b (v : Z) : string :=
  let digits := bin_abs v in
  if v <? 0 then
    String "-" (zeros (5 - String.length digits) ++ digits)
  else zeros (6 - String.length digits) ++ digits.

(** [range(0, stop, step)] *)
Definition range (stop step : nat) : list nat :=
  map (fun k => (k * step)%nat) (seq 0 ((stop + step - 1) / step)).

(** Values stored in the dictionaries the bridge builds. *)
#[warning="-register-all"]
Inductive value : Type :=
| VInt (z : Z)
| VFloat (q : Q)
| VBool (b : bool)
| VStr (s : string)
| VDict (d : list (string * value)).

Definition dict : Type := list (string * value).

Fixpoint get (d : dict) (k : string) : option value :=
  match d with
  | [] => None
  | (k', v) :: d' => if String.eqb k' k then Some v else get d' k
  end.

(** [d[k] = v]: an existing key keeps its place, a new one goes last. *)
Fixpoint set (d : dict) (k : string) (v : value) : dict :=
  match d with
  | [] => [(k, v)]
  | (k', v') :: d' =>
      if String.eqb k' k then (k', v) :: d' else (k', v') :: set d' k v
  end.

(** [d.update(e)] *)
Definition update (d e : dict) : dict :=
  fold_left (fun acc kv => set acc (fst kv) (snd kv)) e d.

(** Truth value of a dictionary or [None] in [if x:]. *)
Definition truthy (o : option dict) : bool :=
  match o with
  | Some (_ :: _) => true
  | _ => false
  end.

End Py.

Notation "x <- r ;; k" := (Py.bind r (fun x => k))
  (at level 61, r at next level, right associativity).

(** ** The bridge: [class AISMQTTBridge] *)

Module AISMQTTBridge.
Import Py.

(** [ord_c = ord(char) - 48; if ord_c > 40: ord_c -= 8] *)
Definition sixbit (char : ascii) : Z :=
  let ord_c := ord char - 48 in
  if ord_c >? 40 then ord_c - 8 else ord_c.

(** The loop [for char in payload: ... binary += format(ord_c, '06b')],
    started with the text accumulated so far. *)
Fixpoint armor_loop (binary payload : string) : string :=
  match payload with
  | EmptyString => binary
  | String char rest => armor_loop (binary ++ format_06b (sixbit char)) rest
  end.

(** Lines 51-58 of [decode_payload]: the armored payload as a text of
    binary digits. *)
Definition armor_to_bits (payload : string) : string :=
  armor_loop "" payload.

(** The body of the loop of [decode_string], over the indices that remain;
    [break] returns the text accumulated so far. *)
Fixpoint decode_string_loop (binary : string) (indices : list nat)
  (result : string) : Py.result string :=
  match indices with
  | [] => Ok result
  | i :: indices' =>
      let char_bin := slice binary i (i + 6) in
      if String.eqb char_bin "000000" then Ok result
      else
        char_val <- int 2 char_bin ;;
        let char_val := if char_val <? 32 then char_val + 64 else char_val in
        c <- chr char_val ;;
        decode_string_loop binary indices' (result ++ String c EmptyString)
  end.

(** [decode_string(self, binary)] *)
Definition decode_string (binary : string) : Py.result string :=
  result <- decode_string_loop binary (range (String.length binary) 6) "" ;;
  Ok (strip is_py_space (strip (Ascii.eqb "@") result)).

(** [int(binary[a:b], 2)] *)
Definition int_field (binary : string) (a b : nat) : Py.result Z :=
  int 2 (slice binary a b).

(** [raw / 600000.0], replaced by [-(0x10000000 - raw) / 600000.0] when
    [raw >= 0x8000000]. *)
Definition lon_of_raw (raw_lon : Z) : Q :=
  let lon := Qmake raw_lon 600000 in
  if raw_lon >=? 0x8000000 then Qmake (- (0x10000000 - raw_lon)) 600000
  else lon.

(** [raw / 600000.0], replaced by [-(0x8000000 - raw) / 600000.0] when
    [raw >= 0x4000000]. *)
Definition lat_of_raw (raw_lat : Z) : Q :=
  let lat := Qmake raw_lat 600000 in
  if raw_lat >=? 0x4000000 then Qmake (- (0x8000000 - raw_lat)) 600000
  else lat.

(** [bool(n)] *)
Definition bool_of_int (n : Z) : bool := negb (n =? 0).

(** [msg_type in [1, 2, 3]]: Position Report Class A. *)
Definition decode_position_a (binary : string) (decoded : dict)
  : Py.result dict :=
  raw_lon <- int_field binary 61 89 ;;
  let lon := lon_of_raw raw_lon in
  raw_lat <- int_field binary 89 116 ;;
  let lat := lat_of_raw raw_lat in
  repeat <- int_field binary 6 8 ;;
  mmsi <- int_field binary 8 38 ;;
  nav_status <- int_field binary 38 42 ;;
  rot <- int_field binary 42 50 ;;
  sog <- int_field binary 50 60 ;;
  pos_accuracy <- int_field binary 60 61 ;;
  cog <- int_field binary 116 128 ;;
  true_heading <- int_field binary 128 137 ;;
  timestamp <- int_field binary 137 143 ;;
  Ok (update decoded
        [("repeat", VInt repeat);
         ("mmsi", VInt mmsi);
         ("nav_status", VInt nav_status);
         ("rot", VInt rot);
         ("sog", VFloat (Qmake sog 10));
         ("pos_accuracy", VBool (bool_of_int pos_accuracy));
         ("longitude", VFloat lon);
         ("latitude", VFloat lat);
         ("cog", VFloat (Qmake cog 10));
         ("true_heading", VInt true_heading);
         ("timestamp", VInt timestamp)]).

(** [msg_type == 5]: Static and Voyage Related Data. *)
Definition decode_static_voyage (binary : string) (decoded : dict)
  : Py.result dict :=
  repeat <- int_field binary 6 8 ;;
  mmsi <- int_field binary 8 38 ;;
  ais_version <- int_field binary 38 40 ;;
  imo <- int_field binary 40 70 ;;
  callsign <- decode_string (slice binary 70 112) ;;
  shipname <- decode_string (slice binary 112 232) ;;
  ship_type <- int_field binary 232 240 ;;
  to_bow <- int_field binary 240 249 ;;
  to_stern <- int_field binary 249 258 ;;
  to_port <- int_field binary 258 264 ;;
  to_starboard <- int_field binary 264 270 ;;
  Ok (update decoded
        [("repeat", VInt repeat);
         ("mmsi", VInt mmsi);
         ("ais_version", VInt ais_version);
         ("imo", VInt imo);
         ("callsign", VStr callsign);
         ("shipname", VStr shipname);
         ("ship_type", VInt ship_type);
         ("to_bow", VInt to_bow);
         ("to_stern", VInt to_stern);
         ("to_port", VInt to_port);
         ("to_starboard", VInt to_starboard)]).

(** [msg_type == 18]: Standard Class B Position Report. *)
Definition decode_position_b (binary : string) (decoded : dict)
  : Py.result dict :=
  raw_lon <- int_field binary 57 85 ;;
  let lon := lon_of_raw raw_lon in
  raw_lat <- int_field binary 85 112 ;;
  let lat := lat_of_raw raw_lat in
  repeat <- int_field binary 6 8 ;;
  mmsi <- int_field binary 8 38 ;;
  sog <- int_field binary 46 56 ;;
  pos_accuracy <- int_field binary 56 57 ;;
  cog <- int_field binary 112 124 ;;
  true_heading <- int_field binary 124 133 ;;
  timestamp <- int_field binary 133 139 ;;
  Ok (update decoded
        [("repeat", VInt repeat);
         ("mmsi", VInt mmsi);
         ("sog", VFloat (Qmake sog 10));
         ("pos_accuracy", VBool (bool_of_int pos_accuracy));
         ("longitude", VFloat lon);
         ("latitude", VFloat lat);
         ("cog", VFloat (Qmake cog 10));
         ("true_heading", VInt true_heading);
         ("timestamp", VInt timestamp)]).

(** [msg_type == 24]: Static Data Report, parts A and B. *)
Definition decode_static_report (binary : string) (decoded : dict)
  : Py.result dict :=
  repeat <- int_field binary 6 8 ;;
  mmsi <- int_field binary 8 38 ;;
  part_no <- int_field binary 38 40 ;;
  let decoded :=
    update decoded
      [("repeat", VInt repeat); ("mmsi", VInt mmsi);
       ("part_no", VInt part_no)] in
  if part_no =? 0 then
    shipname <- decode_string (slice binary 40 160) ;;
    Ok (set decoded "shipname" (VStr shipname))
  else if part_no =? 1 then
    ship_type <- int_field binary 40 48 ;;
    vendor_id <- decode_string (slice binary 48 90) ;;
    callsign <- decode_string (slice binary 90 132) ;;
    to_bow <- int_field binary 132 141 ;;
    to_stern <- int_field binary 141 150 ;;
    to_port <- int_field binary 150 156 ;;
    to_starboard <- int_field binary 156 162 ;;
    Ok (update decoded
          [("ship_type", VInt ship_type);
           ("vendor_id", VStr vendor_id);
           ("callsign", VStr callsign);
           ("to_bow", VInt to_bow);
           ("to_stern", VInt to_stern);
           ("to_port", VInt to_port);
           ("to_starboard", VInt to_starboard)])
  else Ok decoded.

(** The [try] block of [decode_payload], from the binary text on. *)
Definition decode_binary (binary : string) : Py.result dict :=
  msg_type <- int_field binary 0 6 ;;
  let decoded := [("msg_type", VInt msg_type)] in
  if (msg_type =? 1) || (msg_type =? 2) || (msg_type =? 3) then
    decode_position_a binary decoded
  else if msg_type =? 5 then decode_static_voyage binary decoded
  else if msg_type =? 18 then decode_position_b binary decoded
  else if msg_type =? 24 then decode_static_report binary decoded
  else Ok decoded.

(** [decode_payload(self, payload)]: [None] when anything raised. *)
Definition decode_payload (payload : string) : option dict :=
  try_except (decode_binary (armor_to_bits payload)).

(** [int(fields[6]) if fields[6] else 0] *)
Definition fill_bits_of (field : string) : Py.result Z :=
  match field with
  | EmptyString => Ok 0
  | _ => int 10 field
  end.

(** The [try] block of [parse_nmea]. *)
Definition parse_body (message : string) : Py.result dict :=
  if negb (startswith message "!") then Raise ValueError
  else
    match split "*" message with
    | [message_body; checksum] =>
        let fields := split "," message_body in
        if (List.length fields <? 7)%nat then Raise ValueError
        else
          let field := fun n => nth n fields EmptyString in
          fragment_count <- int 10 (field 1%nat) ;;
          fragment_number <- int 10 (field 2%nat) ;;
          fill_bits <- fill_bits_of (field 6%nat) ;;
          let parsed :=
            [("message_type", VStr (field 0%nat));
             ("fragment_count", VInt fragment_count);
             ("fragment_number", VInt fragment_number);
             ("message_id", VStr (field 3%nat));
             ("channel", VStr (field 4%nat));
             ("payload", VStr (field 5%nat));
             ("fill_bits", VInt fill_bits);
             ("checksum", VStr checksum)] in
          let decoded_data := decode_payload (field 5%nat) in
          match decoded_data with
          | Some d =>
              if truthy decoded_data then Ok (set parsed "decoded" (VDict d))
              else Ok parsed
          | None => Ok parsed
          end
    | _ => Raise ValueError
    end.

(** [parse_nmea(self, message)]: [None] when anything raised. *)
Definition parse_nmea (message : string) : option dict :=
  try_except (parse_body message).

End AISMQTTBridge.

Import Py AISMQTTBridge.


(** ** The design document's vocabulary

    Definitions that follow the words of the specification, to be compared
    with the code above. *)

Module Spec.

(** A BitString: "a logical sequence of bits". *)
Definition BitString : Type := list bool.

Definition bit_char (b : bool) : ascii := if b then "1"%char else "0"%char.

(** The text of binary digits that stands for a BitString in the code. *)
Fixpoint bits_text (bits : BitString) : string :=
  match bits with
  | [] => EmptyString
  | b :: bits' => String (bit_char b) (bits_text bits')
  end.

(** The unsigned integer a bit sequence denotes, most significant bit
    first. *)
Definition unsigned (bits : BitString) : Z :=
  fold_left (fun acc (b : bool) => 2 * acc + (if b then 1 else 0)) bits 0.

(** "a fixed-width 6-bit unsigned value, most-significant-bit first" *)
Definition bits6 (v : Z) : BitString :=
  map (Z.testbit v) [5; 4; 3; 2; 1; 0].

(** "a string drawn from the 6-bit-ASCII armoring alphabet": every
    character maps into [0, 63]. *)
Definition in_range (c : ascii) : bool :=
  (0 <=? sixbit c) && (sixbit c <=? 63).

Fixpoint valid_payload (payload : string) : bool :=
  match payload with
  | EmptyString => true
  | String c rest => in_range c && valid_payload rest
  end.

(** The values of the characters of a payload, in input order. *)
Fixpoint payload_values (payload : string) : list Z :=
  match payload with
  | EmptyString => []
  | String c rest => sixbit c :: payload_values rest
  end.

(** The BitString of a payload: each value as 6 bits, in input order. *)
Definition payload_bits (payload : string) : BitString :=
  flat_map bits6 (payload_values payload).

(** "for an N-bit two's-complement field with raw unsigned value r and
    sign threshold T = 2^(N-1): if r >= T, true value = -(2^N - r); else
    true value = r" *)
Definition signed_value (N r : Z) : Z :=
  let T := 2 ^ (N - 1) in
  if r >=? T then - (2 ^ N - r) else r.

(** "Reads 6-bit groups": the first [n] groups of a bit sequence. *)
Fixpoint groups6 (n : nat) (bits : BitString) : list BitString :=
  match n with
  | O => []
  | S n' => firstn 6 bits :: groups6 n' (skipn 6 bits)
  end.

Definition groups (bits : BitString) : list BitString :=
  groups6 ((List.length bits + 5) / 6) bits.

(** "Stop at the first group equal to the literal 0" *)
Fixpoint until_zero (vals : list Z) : list Z :=
  match vals with
  | [] => []
  | c :: vals' => if c =? 0 then [] else c :: until_zero vals'
  end.

(** "if c < 32, add 64", then the character with that code. *)
Definition text_char (c : Z) : ascii :=
  ascii_of_N (Z.to_N (if c <? 32 then c + 64 else c)).

(** The accumulated characters, before stripping. *)
Definition accumulated (bits : BitString) : string :=
  string_of_list_ascii
    (map text_char (until_zero (map unsigned (groups bits)))).

(** "return the string with trailing @ padding characters and
    surrounding whitespace stripped" *)
Definition bits_to_text (bits : BitString) : string :=
  strip is_py_space (rstrip (Ascii.eqb "@") (accumulated bits)).

(** The bits of the range [start, end) of a BitString. *)
Definition bit_range (bits : BitString) (start_ end_ : nat) : BitString :=
  firstn (end_ - start_) (skipn start_ bits).

(** The last character of a text satisfies [p]. *)
Fixpoint ends_with (p : ascii -> bool) (s : string) : bool :=
  match s with
  | EmptyString => false
  | String c EmptyString => p c
  | String _ s' => ends_with p s'
  end.

(** Every character of the text fails [q]. *)
Fixpoint free_of (q : ascii -> bool) (s : string) : bool :=
  match s with
  | EmptyString => true
  | String c s' => negb (q c) && free_of q s'
  end.

(** The number of occurrences of a character in a line. *)
Fixpoint count_char (c : ascii) (s : string) : nat :=
  match s with
  | EmptyString => O
  | String c' s' => (if Ascii.eqb c' c then 1 else 0) + count_char c s'
  end.

(** The text before the first occurrence of [c]. *)
Fixpoint before (c : ascii) (s : string) : string :=
  match s with
  | EmptyString => EmptyString
  | String c' s' => if Ascii.eqb c' c then EmptyString else String c' (before c s')
  end.

(** The text after the first occurrence of [c]. *)
Fixpoint after (c : ascii) (s : string) : string :=
  match s with
  | EmptyString => EmptyString
  | String c' s' => if Ascii.eqb c' c then s' else after c s'
  end.

(** The comma-separated fields of the body of a line. *)
Definition fields_of (line : string) : list string :=
  split "," (before "*" line).

Definition field (line : string) (n : nat) : string :=
  nth n (fields_of line) EmptyString.

Definition is_integer (s : string) : bool :=
  match int_literal 10 s with
  | Some _ => true
  | None => false
  end.

(** "line starts with !; contains exactly one * separating body from
    checksum; body splits on , into at least 7 fields", with integer
    fragment count, fragment number and fill bits ("empty -> 0"). *)
Definition well_formed (line : string) : bool :=
  startswith line "!"
  && (count_char "*" line =? 1)%nat
  && (7 <=? List.length (fields_of line))%nat
  && is_integer (field line 1)
  && is_integer (field line 2)
  && (String.eqb (field line 6) "" || is_integer (field line 6)).

(** The start bit of the last integer field the decoder reads for a
    message type (section 4.2's table); for type 24 the part number, read
    from bits 38-40, selects the layout. *)
Definition last_field_start (bits : BitString) (msg_type : Z) : nat :=
  if (msg_type =? 1) || (msg_type =? 2) || (msg_type =? 3) then 137
  else if msg_type =? 5 then 264
  else if msg_type =? 18 then 133
  else if msg_type =? 24 then
    if (38 <? List.length bits)%nat && (unsigned (bit_range bits 38 40) =? 1)
    then 156 else 38
  else 0.

End Spec.

Import Spec.

(** ** Auxiliary definitions of the proofs *)

(** The text the loop appends for one payload. *)
Fixpoint armor_text (payload : string) : string :=
  match payload with
  | EmptyString => EmptyString
  | String char rest => format_06b (sixbit char) ++ armor_text rest
  end.

(** The characters the loop has appended after [n] iterations over [bits]
    (or when it left by [break]). *)
Fixpoint emitted (n : nat) (bits : BitString) : string :=
  match n with
  | O => EmptyString
  | S n' =>
      let g := firstn 6 bits in
      if String.eqb (bits_text g) "000000" then EmptyString
      else String (text_char (unsigned g)) (emitted n' (skipn 6 bits))
  end.

(** The specification's accumulated characters over the first [n] groups. *)
Definition accumulated_n (n : nat) (bits : BitString) : string :=
  string_of_list_ascii
    (map text_char (until_zero (map unsigned (groups6 n bits)))).

(** The first start bit of the longitude field of a position report. *)
Definition lon_start (t : Z) : nat := if t =? 18 then 57%nat else 61%nat.

(** The raw fields of a sentence, as [parse_nmea] stores them. *)
Definition raw_fields (line : string) (fragment_count fragment_number
  fill_bits : Z) : dict :=
  [("message_type", VStr (field line 0));
   ("fragment_count", VInt fragment_count);
   ("fragment_number", VInt fragment_number);
   ("message_id", VStr (field line 3));
   ("channel", VStr (field line 4));
   ("payload", VStr (field line 5));
   ("fill_bits", VInt fill_bits);
   ("checksum", VStr (after "*" line))].

(** What [parse_nmea] attaches under ["decoded"] for a payload field. *)
Definition attached (payload : string) : option value :=
  match decode_payload payload with
  | Some d => if truthy (Some d) then Some (VDict d) else None
  | None => None
  end.

(** The sentence [parse_nmea] returns for a well-formed line. *)
Definition sentence (line : string) (fragment_count fragment_number
  fill_bits : Z) : dict :=
  match attached (field line 5) with
  | Some v => set (raw_fields line fragment_count fragment_number fill_bits)
                "decoded" v
  | None => raw_fields line fragment_count fragment_number fill_bits
  end.

(** [int(fields[6]) if fields[6] else 0], as an optional integer. *)
Definition fill_bits_value (s : string) : option Z :=
  match s with
  | EmptyString => Some 0
  | _ => int_literal 10 s
  end.

(** The tag read from the text one character contributes. *)
Definition first_type (c : ascii) : option Z :=
  int_literal 2 (slice (format_06b (sixbit c)) 0 6).

(** What holds of the text of an out-of-range character: it fills the
    first six places, it is signed or longer than six, and the tag read from
    it is negative or in [32, 63]. *)
Definition out_of_range_text (c : ascii) : bool :=
  let text := format_06b (sixbit c) in
  (6 <=? String.length text)%nat
  && (startswith text "-" || (6 <? String.length text)%nat)
  && match first_type c with
     | Some t => (t <? 0) || ((32 <=? t) && (t <=? 63))
     | None => false
     end.

(** The bit after the last one the decoder reads for a message type (for
    type 24, of either part). *)
Definition layout_end (msg_type : Z) : nat :=
  if (msg_type =? 1) || (msg_type =? 2) || (msg_type =? 3) then 143
  else if msg_type =? 5 then 270
  else if msg_type =? 18 then 139
  else if msg_type =? 24 then 162
  else 6.

(** The 6-bit value that [decode_string] turns into the character [c]: the
    inverse of "add 64 below 32". *)
Definition text_value (c : ascii) : Z :=
  if ord c <? 64 then ord c else ord c - 64.

(** A text as 6-bit groups, one for each character. *)
Fixpoint text_bits (s : string) : BitString :=
  match s with
  | EmptyString => []
  | String c s' => (bits6 (text_value c) ++ text_bits s')%list
  end.

(** The characters [decode_string] can return: the codes 32 to 95, ["@"]
    excepted. *)
Definition ais_text_char (c : ascii) : bool :=
  (32 <=? ord c) && (ord c <=? 95) && negb (Ascii.eqb c "@").


(** The unsigned value of the bits [a, b) of a payload's BitString. *)
Definition payload_field (payload : string) (a b : nat) : Z :=
  unsigned (bit_range (payload_bits payload) a b).

(** The text held in the bits [a, b) of a payload's BitString. *)
Definition payload_text (payload : string) (a b : nat) : string :=
  bits_to_text (bit_range (payload_bits payload) a b).

(** ** Sample inputs *)

(** The sentence of section 8 of the design document. *)
Definition sample_line : string :=
  "!AIVDM,1,1,,A,15M67FC000G?ufbE`FepT@3n00Sa,0*5C".

Definition sample_payload : string := "15M67FC000G?ufbE`FepT@3n00Sa".

Definition sample_report : dict :=
  [("msg_type", VInt 1); ("repeat", VInt 0); ("mmsi", VInt 366053209);
   ("nav_status", VInt 3); ("rot", VInt 0); ("sog", VFloat (Qmake 0 10));
   ("pos_accuracy", VBool false);
   ("longitude", VFloat (Qmake (-73404971) 600000));
   ("latitude", VFloat (Qmake 22681271 600000));
   ("cog", VFloat (Qmake 2193 10)); ("true_heading", VInt 1);
   ("timestamp", VInt 59)].

(** A position report of 168 bits whose raw longitude is 108600000 and whose
    raw latitude is 54600000: the values that stand for "not available". *)
Definition unavailable_payload : string := "1000000000<tSF0l4Q@000000000".

Definition unavailable_report : dict :=
  [("msg_type", VInt 1); ("repeat", VInt 0); ("mmsi", VInt 0);
   ("nav_status", VInt 0); ("rot", VInt 0); ("sog", VFloat (Qmake 0 10));
   ("pos_accuracy", VBool false);
   ("longitude", VFloat (Qmake 108600000 600000));
   ("latitude", VFloat (Qmake 54600000 600000));
   ("cog", VFloat (Qmake 0 10)); ("true_heading", VInt 0);
   ("timestamp", VInt 0)].

(** A position report of 168 bits whose raw longitude is 0x8000000 and whose
    raw latitude is 0x4000000: the sign bits alone. *)
Definition extreme_payload : string := "1000000000@00010000000000000".

(** A position report of 23 characters: 138 bits, five fewer than the
    layout of message types 1 to 3. *)
Definition short_payload : string := "10000000000000000000000".

Definition short_report : dict :=
  [("msg_type", VInt 1); ("repeat", VInt 0); ("mmsi", VInt 0);
   ("nav_status", VInt 0); ("rot", VInt 0); ("sog", VFloat (Qmake 0 10));
   ("pos_accuracy", VBool false);
   ("longitude", VFloat (Qmake 0 600000));
   ("latitude", VFloat (Qmake 0 600000));
   ("cog", VFloat (Qmake 0 10)); ("true_heading", VInt 0);
   ("timestamp", VInt 0)].

(** * Properties *)

(** ** Text: append, substring, strip *)

Section Text.

Lemma append_nil_r (s : string) : s ++ "" = s.
Proof. induction s as [|c s IH]; simpl; [reflexivity | now rewrite IH]. Qed.

Lemma append_assoc (s t u : string) : (s ++ t) ++ u = s ++ (t ++ u).
Proof. induction s as [|c s IH]; simpl; [reflexivity | now rewrite IH]. Qed.

Lemma length_append (s t : string) :
  String.length (s ++ t) = (String.length s + String.length t)%nat.
Proof. induction s as [|c s IH]; simpl; [reflexivity | now rewrite IH]. Qed.

Lemma substring_nil (a m : nat) : substring a m "" = "".
Proof. destruct a, m; reflexivity. Qed.

Lemma length_substring (s : string) : forall a m,
  String.length (substring a m s) = Nat.min m (String.length s - a).
Proof.
  induction s as [|c s IH]; intros a m.
  - rewrite substring_nil. simpl. lia.
  - destruct a as [|a].
    + destruct m as [|m]; simpl; [reflexivity|]. rewrite IH. lia.
    + simpl. apply IH.
Qed.

Lemma substring_append_l (s t : string) : forall a m,
  (a + m <= String.length s)%nat ->
  substring a m (s ++ t) = substring a m s.
Proof.
  induction s as [|c s IH]; intros a m H.
  - simpl in H. assert (a = O) by lia. assert (m = O) by lia. subst.
    destruct t; reflexivity.
  - destruct a as [|a].
    + destruct m as [|m]; simpl; [reflexivity|].
      f_equal. apply IH. simpl in H. lia.
    + simpl. apply IH. simpl in H. lia.
Qed.

Lemma lstrip_length (p : ascii -> bool) (s : string) :
  (String.length (lstrip p s) <= String.length s)%nat.
Proof.
  induction s as [|c s IH]; simpl; [lia|].
  destruct (p c); simpl; lia.
Qed.

Lemma rstrip_length (p : ascii -> bool) (s : string) :
  (String.length (rstrip p s) <= String.length s)%nat.
Proof.
  induction s as [|c s IH]; simpl; [lia|].
  destruct (rstrip p s); [destruct (p c)|]; simpl in *; lia.
Qed.

Lemma strip_length (p : ascii -> bool) (s : string) :
  (String.length (strip p s) <= String.length s)%nat.
Proof.
  unfold strip. pose proof (rstrip_length p (lstrip p s)).
  pose proof (lstrip_length p s). lia.
Qed.

(** Stripping leaves no character of the stripped class at the end. *)
Lemma rstrip_ends (p : ascii -> bool) (s : string) :
  ends_with p (rstrip p s) = false.
Proof.
  induction s as [|c s IH]; simpl; [reflexivity|].
  destruct (rstrip p s) as [|c' r] eqn:E.
  - destruct (p c) eqn:Ep; simpl; [reflexivity | exact Ep].
  - exact IH.
Qed.

Lemma lstrip_free (p q : ascii -> bool) (s : string) :
  free_of q s = true -> free_of q (lstrip p s) = true.
Proof.
  induction s as [|c s IH]; simpl; [auto|].
  intros H. apply andb_true_iff in H as [Hc Hs].
  destruct (p c); [auto | simpl; now rewrite Hc, Hs].
Qed.

Lemma rstrip_free (p q : ascii -> bool) (s : string) :
  free_of q s = true -> free_of q (rstrip p s) = true.
Proof.
  induction s as [|c s IH]; simpl; [auto|].
  intros H. apply andb_true_iff in H as [Hc Hs]. specialize (IH Hs).
  destruct (rstrip p s); [destruct (p c)|]; simpl in *;
    rewrite ?Hc; auto.
Qed.

Lemma strip_free (p q : ascii -> bool) (s : string) :
  free_of q s = true -> free_of q (strip p s) = true.
Proof. intros H. unfold strip. now apply rstrip_free, lstrip_free. Qed.

Lemma free_ends (q : ascii -> bool) (s : string) :
  free_of q s = true -> ends_with q s = false.
Proof.
  induction s as [|c s IH]; simpl; [reflexivity|].
  intros H. apply andb_true_iff in H as [Hc Hs].
  destruct s; [now apply negb_true_iff in Hc | auto].
Qed.

Lemma lstrip_id_free (p : ascii -> bool) (s : string) :
  free_of p s = true -> lstrip p s = s.
Proof.
  destruct s as [|c s]; simpl; [reflexivity|].
  intros H. apply andb_true_iff in H as [Hc _].
  apply negb_true_iff in Hc. now rewrite Hc.
Qed.

Lemma rstrip_id_free (p : ascii -> bool) (s : string) :
  free_of p s = true -> rstrip p s = s.
Proof.
  induction s as [|c s IH]; simpl; [reflexivity|].
  intros H. apply andb_true_iff in H as [Hc Hs].
  rewrite (IH Hs). apply negb_true_iff in Hc. rewrite Hc.
  destruct s; reflexivity.
Qed.

Lemma strip_id_free (p : ascii -> bool) (s : string) :
  free_of p s = true -> strip p s = s.
Proof.
  intros H. unfold strip. rewrite (lstrip_id_free p s H).
  now apply rstrip_id_free.
Qed.

(** A text free of [p] followed by one [p] character. *)
Lemma rstrip_snoc (p : ascii -> bool) (s : string) (c : ascii) :
  free_of p s = true -> p c = true ->
  rstrip p (s ++ String c "") = s.
Proof.
  intros Hs Hc. induction s as [|c' s IH]; simpl.
  - now rewrite Hc.
  - apply andb_true_iff in Hs as [Hc' Hs]. rewrite (IH Hs).
    apply negb_true_iff in Hc'. rewrite Hc'. destruct s; reflexivity.
Qed.

Lemma strip_snoc (p : ascii -> bool) (s : string) (c : ascii) :
  free_of p s = true -> p c = true ->
  strip p (s ++ String c "") = s.
Proof.
  intros Hs Hc. unfold strip. destruct s as [|c' s].
  - simpl. now rewrite Hc.
  - pose proof Hs as Hs'. simpl in Hs'.
    apply andb_true_iff in Hs' as [Hc' _]. apply negb_true_iff in Hc'.
    change ((String c' s ++ String c "")) with (String c' (s ++ String c "")).
    cbn [lstrip]. rewrite Hc'.
    change (String c' (s ++ String c "")) with (String c' s ++ String c "").
    now apply rstrip_snoc.
Qed.

End Text.

(** ** Bit strings as texts of binary digits *)

Section Bits.

Lemma bits_text_length (bits : BitString) :
  String.length (bits_text bits) = List.length bits.
Proof. induction bits as [|b l IH]; simpl; [reflexivity | now rewrite IH]. Qed.

Lemma bits_text_app (l1 l2 : BitString) :
  bits_text (l1 ++ l2)%list = bits_text l1 ++ bits_text l2.
Proof. induction l1 as [|b l IH]; simpl; [reflexivity | now rewrite IH]. Qed.

Lemma bits_text_inj (l1 l2 : BitString) :
  bits_text l1 = bits_text l2 -> l1 = l2.
Proof.
  revert l2. induction l1 as [|b l IH]; intros [|b' l']; simpl;
    try discriminate; [reflexivity|].
  intros H. injection H as Hb Hl. f_equal; [|now apply IH].
  destruct b, b'; simpl in Hb; congruence.
Qed.

Lemma substring_bits (bits : BitString) : forall a m,
  substring a m (bits_text bits) = bits_text (firstn m (skipn a bits)).
Proof.
  induction bits as [|b l IH]; intros a m.
  - rewrite substring_nil, skipn_nil, firstn_nil. reflexivity.
  - destruct a as [|a].
    + destruct m as [|m]; simpl; [reflexivity|].
      f_equal. rewrite (IH O m). reflexivity.
    + simpl. apply IH.
Qed.

Lemma slice_bits (bits : BitString) (a b : nat) :
  slice (bits_text bits) a b = bits_text (bit_range bits a b).
Proof. apply substring_bits. Qed.

Lemma bit_range_length (bits : BitString) (a b : nat) :
  List.length (bit_range bits a b) = Nat.min (b - a) (List.length bits - a).
Proof. unfold bit_range. now rewrite length_firstn, length_skipn. Qed.

Lemma bits_text_free (q : ascii -> bool) (bits : BitString) :
  q "0"%char = false -> q "1"%char = false ->
  free_of q (bits_text bits) = true.
Proof.
  intros H0 H1. induction bits as [|b l IH]; simpl; [reflexivity|].
  rewrite IH. destruct b; simpl; now rewrite ?H0, ?H1.
Qed.

Lemma scan_digits_bit (b : bool) (s : string) (acc : Z) :
  scan_digits 2 acc false (String (bit_char b) s)
  = scan_digits 2 (acc * 2 + (if b then 1 else 0)) false s.
Proof. destruct b; reflexivity. Qed.

Lemma scan_digits_bits (bits : BitString) : forall acc,
  scan_digits 2 acc false (bits_text bits)
  = Some (fold_left (fun a (b : bool) => 2 * a + (if b then 1 else 0)) bits acc).
Proof.
  induction bits as [|b l IH]; intros acc; [reflexivity|].
  cbn [bits_text fold_left]. rewrite scan_digits_bit, IH.
  now rewrite (Z.mul_comm acc 2).
Qed.

(** [int(text, 2)] on the text of a bit sequence: the unsigned value, and
    [ValueError] exactly for the empty sequence. *)
Lemma int_literal_bits (bits : BitString) :
  int_literal 2 (bits_text bits)
  = match bits with [] => None | _ => Some (unsigned bits) end.
Proof.
  destruct bits as [|b0 l]; [reflexivity|].
  unfold int_literal.
  rewrite strip_id_free by (apply bits_text_free; reflexivity).
  assert (Hs : (let '(neg, s2) :=
            match bits_text (b0 :: l) with
            | EmptyString => (false, bits_text (b0 :: l))
            | String c r =>
                if Ascii.eqb c "-" then (true, r)
                else if Ascii.eqb c "+" then (false, r)
                else (false, bits_text (b0 :: l))
            end in
          match parse_digits 2 (skip_prefix 2 s2) with
          | Some v => Some (if neg then - v else v)
          | None => None
          end)
         = match parse_digits 2 (skip_prefix 2 (bits_text (b0 :: l))) with
           | Some v => Some v
           | None => None
           end).
  { destruct b0; reflexivity. }
  rewrite Hs. clear Hs.
  assert (Hp : skip_prefix 2 (bits_text (b0 :: l)) = bits_text (b0 :: l)).
  { destruct l as [|b1 l]; [destruct b0; reflexivity|].
    destruct b0, b1; reflexivity. }
  rewrite Hp. clear Hp.
  assert (Hd : parse_digits 2 (bits_text (b0 :: l))
               = scan_digits 2 0 false (bits_text (b0 :: l))).
  { destruct b0; reflexivity. }
  rewrite Hd, scan_digits_bits. reflexivity.
Qed.

(** An integer field of a bit string is read exactly when the string
    reaches the field's first bit. *)
Lemma int_field_bits (bits : BitString) (a b : nat) :
  (a < b)%nat ->
  int_field (bits_text bits) a b
  = if (a <? List.length bits)%nat then Ok (unsigned (bit_range bits a b))
    else Raise ValueError.
Proof.
  intros Hab. unfold int_field, int. rewrite slice_bits, int_literal_bits.
  pose proof (bit_range_length bits a b) as Hl.
  destruct (Nat.ltb_spec a (List.length bits)) as [Hlt|Hge];
    destruct (bit_range bits a b); simpl in Hl; try reflexivity; lia.
Qed.

Lemma unsigned_bounds_acc (bits : BitString) : forall acc,
  0 <= acc ->
  acc * 2 ^ Z.of_nat (List.length bits)
  <= fold_left (fun a (b : bool) => 2 * a + (if b then 1 else 0)) bits acc
  < (acc + 1) * 2 ^ Z.of_nat (List.length bits).
Proof.
  induction bits as [|b l IH]; intros acc Hacc.
  - simpl. lia.
  - cbn [fold_left List.length]. rewrite Nat2Z.inj_succ, Z.pow_succ_r by lia.
    specialize (IH (2 * acc + (if b then 1 else 0))).
    assert (0 < 2 ^ Z.of_nat (List.length l)) by (apply Z.pow_pos_nonneg; lia).
    destruct b; nia.
Qed.

Lemma unsigned_bounds (bits : BitString) :
  0 <= unsigned bits < 2 ^ Z.of_nat (List.length bits).
Proof.
  pose proof (unsigned_bounds_acc bits 0 (Z.le_refl 0)). unfold unsigned. lia.
Qed.

(** A full group with value zero is the all-zero group. *)
Lemma unsigned_zero (bits : BitString) :
  unsigned bits = 0 -> bits = repeat false (List.length bits).
Proof.
  unfold unsigned. induction bits as [|b l IH]; [reflexivity|].
  cbn [fold_left List.length repeat]. destruct b.
  - pose proof (unsigned_bounds_acc l (2 * 0 + 1)). lia.
  - intros H. f_equal. apply IH. exact H.
Qed.

End Bits.

(** ** The armor-to-bits conversion *)

Section Armor.

Lemma armor_loop_text (payload : string) : forall binary,
  armor_loop binary payload = binary ++ armor_text payload.
Proof.
  induction payload as [|c rest IH]; intros binary; simpl.
  - now rewrite append_nil_r.
  - now rewrite IH, append_assoc.
Qed.

Lemma armor_to_bits_cons (c : ascii) (rest : string) :
  armor_to_bits (String c rest) = format_06b (sixbit c) ++ armor_to_bits rest.
Proof.
  unfold armor_to_bits. now rewrite !armor_loop_text.
Qed.

Lemma format_06b_bits6 (v : Z) :
  0 <= v <= 63 -> format_06b v = bits_text (bits6 v).
Proof.
  intros H. destruct v as [|p|p]; [reflexivity| |lia].
  do 6 (destruct p as [p|p|]; try reflexivity; try lia).
Qed.

Lemma unsigned_bits6 (v : Z) : 0 <= v <= 63 -> unsigned (bits6 v) = v.
Proof.
  intros H. destruct v as [|p|p]; [reflexivity| |lia].
  do 6 (destruct p as [p|p|]; try reflexivity; try lia).
Qed.

Lemma in_range_spec (c : ascii) :
  in_range c = true <-> 0 <= sixbit c <= 63.
Proof. unfold in_range. rewrite andb_true_iff, !Z.leb_le. tauto. Qed.

Lemma armor_valid (payload : string) :
  valid_payload payload = true ->
  armor_to_bits payload = bits_text (payload_bits payload).
Proof.
  induction payload as [|c rest IH]; [reflexivity|].
  intros H. simpl in H. apply andb_true_iff in H as [Hc Hr].
  rewrite armor_to_bits_cons, (IH Hr).
  unfold payload_bits. cbn [payload_values flat_map].
  rewrite bits_text_app. f_equal.
  apply format_06b_bits6. now apply in_range_spec.
Qed.

Lemma payload_bits_length (payload : string) :
  List.length (payload_bits payload) = (6 * String.length payload)%nat.
Proof.
  unfold payload_bits. induction payload as [|c rest IH]; [reflexivity|].
  cbn [payload_values flat_map String.length].
  rewrite length_app, IH. cbn [bits6 List.length map]. lia.
Qed.


End Armor.

(** ** [decode_string] on bit strings *)

Section DecodeString.

Lemma chr_text_char (v : Z) :
  0 <= v < 64 ->
  chr (if v <? 32 then v + 64 else v) = Ok (text_char v).
Proof.
  intros H. unfold chr, text_char.
  destruct (Z.ltb_spec v 32).
  - destruct (Z.leb_spec 0 (v + 64)); destruct (Z.ltb_spec (v + 64) 256);
      try lia; reflexivity.
  - destruct (Z.leb_spec 0 v); destruct (Z.ltb_spec v 256);
      try lia; reflexivity.
Qed.

Lemma text_char_not_at (v : Z) :
  0 < v < 64 -> Ascii.eqb "@" (text_char v) = false.
Proof.
  intros H. destruct v as [|p|p]; [lia| |lia].
  do 6 (destruct p as [p|p|]; try reflexivity; try lia).
Qed.

Lemma group_bounds (bits : BitString) :
  0 <= unsigned (firstn 6 bits) < 64.
Proof.
  pose proof (unsigned_bounds (firstn 6 bits)) as H.
  assert (Hl : (List.length (firstn 6 bits) <= 6)%nat)
    by (rewrite length_firstn; lia).
  assert (2 ^ Z.of_nat (List.length (firstn 6 bits)) <= 2 ^ 6)
    by (apply Z.pow_le_mono_r; lia).
  change (2 ^ 6) with 64 in *. lia.
Qed.

Lemma decode_string_loop_bits (bits : BitString) : forall n j acc,
  (n = 0 \/ (j + n - 1) * 6 < List.length bits)%nat ->
  decode_string_loop (bits_text bits) (map (fun k => (k * 6)%nat) (seq j n)) acc
  = Ok (acc ++ emitted n (skipn (j * 6) bits)).
Proof.
  induction n as [|n IH]; intros j acc Hn.
  - simpl. now rewrite append_nil_r.
  - cbn [seq map decode_string_loop emitted].
    rewrite slice_bits. unfold bit_range.
    replace (j * 6 + 6 - j * 6)%nat with 6%nat by lia.
    set (g := firstn 6 (skipn (j * 6) bits)).
    destruct (String.eqb (bits_text g) "000000") eqn:Ez.
    + now rewrite append_nil_r.
    + assert (Hg : g <> []).
      { intros E. apply (f_equal (@List.length bool)) in E.
        unfold g in E. rewrite length_firstn, length_skipn in E.
        cbn [List.length] in E. lia. }
      unfold int. rewrite int_literal_bits.
      destruct g as [|b0 g'] eqn:Eg; [congruence|].
      rewrite <- Eg in *. cbn [bind].
      rewrite chr_text_char by (unfold g; apply group_bounds).
      cbn [bind]. rewrite IH by lia.
      rewrite append_assoc. cbn [append].
      rewrite skipn_skipn.
      replace (6 + j * 6)%nat with (S j * 6)%nat by lia.
      reflexivity.
Qed.

Lemma accumulated_free (n : nat) : forall bits,
  free_of (Ascii.eqb "@") (accumulated_n n bits) = true.
Proof.
  unfold accumulated_n.
  induction n as [|n IH]; intros bits; [reflexivity|].
  cbn [groups6 map until_zero].
  destruct (Z.eqb_spec (unsigned (firstn 6 bits)) 0) as [E|E]; [reflexivity|].
  cbn [map string_of_list_ascii free_of].
  rewrite IH, text_char_not_at; [reflexivity|].
  pose proof (group_bounds bits). lia.
Qed.

(** The loop and the specification accumulate the same characters, except
    that the loop turns a last, incomplete all-zero group into one ["@"]. *)
Lemma emitted_accumulated (n : nat) : forall bits,
  (n * 6 < List.length bits + 6)%nat ->
  emitted n bits = accumulated_n n bits
  \/ emitted n bits = accumulated_n n bits ++ "@".
Proof.
  unfold accumulated_n.
  induction n as [|n IH]; intros bits Hn; [now left|].
  cbn [emitted groups6 map until_zero].
  set (g := firstn 6 bits).
  destruct (String.eqb_spec (bits_text g) "000000") as [Ez|Ez].
  - change "000000" with (bits_text (repeat false 6)) in Ez.
    apply bits_text_inj in Ez. rewrite Ez. now left.
  - destruct (Z.eqb_spec (unsigned g) 0) as [E|E].
    + right. rewrite E.
      assert (Hlen : (List.length g < 6)%nat).
      { assert (List.length g <= 6)%nat by (unfold g; rewrite length_firstn; lia).
        destruct (Nat.eq_dec (List.length g) 6) as [E6|]; [|lia].
        exfalso. apply Ez. rewrite (unsigned_zero g E), E6. reflexivity. }
      unfold g in Hlen. rewrite length_firstn in Hlen.
      assert (n = O) by lia. subst n. reflexivity.
    + cbn [map string_of_list_ascii].
      assert (Hn' : (n * 6 < List.length (skipn 6 bits) + 6)%nat)
        by (rewrite length_skipn; lia).
      destruct (IH (skipn 6 bits) Hn') as [H|H]; rewrite H; [now left|now right].
Qed.

Lemma range_groups (len : nat) :
  range len 6 = map (fun k => (k * 6)%nat) (seq 0 ((len + 5) / 6)).
Proof. unfold range. do 3 f_equal. lia. Qed.

Lemma groups_count (len : nat) :
  ((len + 5) / 6 = 0 \/ (0 + (len + 5) / 6 - 1) * 6 < len)%nat
  /\ ((len + 5) / 6 * 6 < len + 6)%nat.
Proof.
  pose proof (Nat.div_mod_eq (len + 5) 6) as H.
  pose proof (Nat.mod_upper_bound (len + 5) 6) as H'.
  lia.
Qed.

(** [decode_string] on the text of a bit sequence returns the text the
    specification describes. *)
Lemma decode_string_bits (bits : BitString) :
  decode_string (bits_text bits) = Ok (bits_to_text bits).
Proof.
  unfold decode_string. rewrite bits_text_length, range_groups.
  destruct (groups_count (List.length bits)) as [H1 H2].
  rewrite decode_string_loop_bits by exact H1.
  cbn [bind append skipn Nat.mul]. f_equal.
  unfold bits_to_text, accumulated, groups.
  fold (accumulated_n ((List.length bits + 5) / 6) bits).
  pose proof (accumulated_free ((List.length bits + 5) / 6) bits) as Hf.
  rewrite (rstrip_id_free _ _ Hf).
  destruct (emitted_accumulated _ bits H2) as [E|E]; rewrite E.
  - now rewrite (strip_id_free _ _ Hf).
  - now rewrite (strip_snoc _ _ _ Hf (eq_refl : Ascii.eqb "@" "@" = true)).
Qed.

Lemma bits_to_text_ends (bits : BitString) :
  ends_with (Ascii.eqb "@") (bits_to_text bits) = false
  /\ ends_with is_py_space (bits_to_text bits) = false.
Proof.
  unfold bits_to_text, accumulated, groups.
  fold (accumulated_n ((List.length bits + 5) / 6) bits).
  pose proof (accumulated_free ((List.length bits + 5) / 6) bits) as Hf.
  split.
  - apply free_ends, strip_free, rstrip_free, Hf.
  - unfold strip. apply rstrip_ends.
Qed.

End DecodeString.

(** ** Bounds on [int(text, 2)] for any text *)

Section IntBounds.

Lemma digit_val_nonneg (c : ascii) (d : Z) : digit_val c = Some d -> 0 <= d.
Proof.
  unfold digit_val.
  destruct (Z.leb_spec 48 (ord c)), (Z.leb_spec (ord c) 57);
  destruct (Z.leb_spec 97 (ord c)), (Z.leb_spec (ord c) 122);
  destruct (Z.leb_spec 65 (ord c)), (Z.leb_spec (ord c) 90);
  cbn [andb]; intros E; inversion E; lia.
Qed.

Lemma scan_digits_bounds (s : string) : forall acc u v,
  0 <= acc ->
  scan_digits 2 acc u s = Some v ->
  0 <= v < (acc + 1) * 2 ^ Z.of_nat (String.length s).
Proof.
  induction s as [|c s IH]; intros acc u v Hacc H.
  - simpl in H. destruct u; [discriminate|]. injection H as <-.
    simpl. lia.
  - cbn [scan_digits] in H. cbn [String.length].
    rewrite Nat2Z.inj_succ, Z.pow_succ_r by lia.
    assert (Hp : 0 < 2 ^ Z.of_nat (String.length s))
      by (apply Z.pow_pos_nonneg; lia).
    destruct (Ascii.eqb c "_").
    + destruct u; [discriminate|].
      apply IH in H; [nia | lia].
    + destruct (digit_val c) as [d|] eqn:Ed; [|discriminate].
      apply digit_val_nonneg in Ed.
      destruct (Z.ltb_spec d 2) as [Hd|Hd]; [|discriminate].
      apply IH in H; [nia | lia].
Qed.

Lemma parse_digits_bounds (s : string) (v : Z) :
  parse_digits 2 s = Some v -> 0 <= v < 2 ^ Z.of_nat (String.length s).
Proof.
  unfold parse_digits. destruct s as [|c s]; [discriminate|].
  destruct (Ascii.eqb c "_"); [discriminate|].
  intros H. apply scan_digits_bounds in H; lia.
Qed.

Lemma skip_prefix_length (base : Z) (s : string) :
  (String.length (skip_prefix base s) <= String.length s)%nat.
Proof.
  unfold skip_prefix. destruct s as [|c0 [|c1 r]]; simpl; try lia.
  destruct ((base =? 2) && Ascii.eqb c0 "0"
            && (Ascii.eqb c1 "b" || Ascii.eqb c1 "B")); simpl; [|lia].
  destruct r as [|c2 r']; simpl; [lia|].
  destruct (Ascii.eqb c2 "_"); simpl; lia.
Qed.

(** A binary literal of at most [n] characters, sign included, lies
    strictly between [-2^(n-1)] and [2^n]. *)
Lemma int_literal_bounds (s : string) (n : nat) (v : Z) :
  (String.length s <= n)%nat ->
  int_literal 2 s = Some v ->
  - 2 ^ (Z.of_nat n - 1) < v < 2 ^ Z.of_nat n.
Proof.
  intros Hlen H. unfold int_literal in H.
  pose proof (strip_length is_int_space s) as Hs.
  set (s1 := strip is_int_space s) in *.
  assert (Hmono : forall k : nat, (k <= n)%nat ->
            2 ^ Z.of_nat k <= 2 ^ Z.of_nat n)
    by (intros k Hk; apply Z.pow_le_mono_r; lia).
  assert (Hpos : forall k, 0 <= k -> 0 < 2 ^ k)
    by (intros k Hk; apply Z.pow_pos_nonneg; lia).
  assert (Hcase :
    forall (neg : bool) (s2 : string),
      (String.length s2 + (if neg then 1 else 0) <= n)%nat ->
      match parse_digits 2 (skip_prefix 2 s2) with
      | Some v => Some (if neg then - v else v)
      | None => None
      end = Some v ->
      - 2 ^ (Z.of_nat n - 1) < v < 2 ^ Z.of_nat n).
  { intros neg s2 Hl2 H2.
    destruct (parse_digits 2 (skip_prefix 2 s2)) as [w|] eqn:Ew; [|discriminate].
    injection H2 as <-.
    assert (Hne : (1 <= String.length (skip_prefix 2 s2))%nat).
    { destruct (skip_prefix 2 s2); [discriminate | simpl; lia]. }
    apply parse_digits_bounds in Ew.
    pose proof (skip_prefix_length 2 s2) as Hk.
    destruct neg.
    - assert (2 ^ Z.of_nat (String.length (skip_prefix 2 s2))
              <= 2 ^ (Z.of_nat n - 1))
        by (apply Z.pow_le_mono_r; lia).
      pose proof (Hpos (Z.of_nat n) ltac:(lia)). lia.
    - pose proof (Hmono (String.length (skip_prefix 2 s2)) ltac:(lia)).
      pose proof (Hpos (Z.of_nat n - 1) ltac:(lia)). lia. }
  destruct s1 as [|c r] eqn:E1.
  - apply (Hcase false ""); [simpl; lia | exact H].
  - destruct (Ascii.eqb c "-").
    + apply (Hcase true r); [simpl in Hs; lia | exact H].
    + destruct (Ascii.eqb c "+").
      * apply (Hcase false r); [simpl in Hs; lia | exact H].
      * apply (Hcase false (String c r)); [simpl in *; lia | exact H].
Qed.

Lemma slice_length (s : string) (a b : nat) :
  (String.length (slice s a b) <= b - a)%nat.
Proof. unfold slice. rewrite length_substring. lia. Qed.

Lemma int_field_bounds (binary : string) (a b : nat) (v : Z) :
  int_field binary a b = Ok v ->
  - 2 ^ (Z.of_nat (b - a) - 1) < v < 2 ^ Z.of_nat (b - a).
Proof.
  unfold int_field, int. intros H.
  destruct (int_literal 2 (slice binary a b)) as [w|] eqn:E; [|discriminate].
  injection H as <-.
  exact (int_literal_bounds _ _ _ (slice_length binary a b) E).
Qed.

End IntBounds.

(** ** The message field decoder *)

Section Decoder.

(** Splits the leading binds of a successful computation [H]. *)
Ltac split_binds H :=
  repeat match type of H with
         | bind ?r _ = Ok _ =>
             let E := fresh "E" in
             destruct r eqn:E; cbn [bind] in H; [|discriminate H]
         end.

Lemma decode_position_a_inv (binary : string) (t : Z) (d : dict) :
  decode_position_a binary [("msg_type", VInt t)] = Ok d ->
  exists raw_lon raw_lat,
    int_field binary 61 89 = Ok raw_lon
    /\ int_field binary 89 116 = Ok raw_lat
    /\ get d "msg_type" = Some (VInt t)
    /\ get d "longitude" = Some (VFloat (lon_of_raw raw_lon))
    /\ get d "latitude" = Some (VFloat (lat_of_raw raw_lat)).
Proof.
  unfold decode_position_a. intros H. split_binds H.
  injection H as <-. exists a, a0. repeat split; reflexivity.
Qed.

Lemma decode_position_b_inv (binary : string) (t : Z) (d : dict) :
  decode_position_b binary [("msg_type", VInt t)] = Ok d ->
  exists raw_lon raw_lat,
    int_field binary 57 85 = Ok raw_lon
    /\ int_field binary 85 112 = Ok raw_lat
    /\ get d "msg_type" = Some (VInt t)
    /\ get d "longitude" = Some (VFloat (lon_of_raw raw_lon))
    /\ get d "latitude" = Some (VFloat (lat_of_raw raw_lat)).
Proof.
  unfold decode_position_b. intros H. split_binds H.
  injection H as <-. exists a, a0. repeat split; reflexivity.
Qed.

Lemma decode_static_voyage_type (binary : string) (t : Z) (d : dict) :
  decode_static_voyage binary [("msg_type", VInt t)] = Ok d ->
  get d "msg_type" = Some (VInt t).
Proof.
  unfold decode_static_voyage. intros H. split_binds H.
  injection H as <-. reflexivity.
Qed.

Lemma decode_static_report_type (binary : string) (t : Z) (d : dict) :
  decode_static_report binary [("msg_type", VInt t)] = Ok d ->
  get d "msg_type" = Some (VInt t).
Proof.
  unfold decode_static_report. intros H. split_binds H.
  destruct (a1 =? 0).
  - split_binds H. injection H as <-. reflexivity.
  - destruct (a1 =? 1).
    + split_binds H. injection H as <-. reflexivity.
    + injection H as <-. reflexivity.
Qed.

(** A decoded position report carries the coordinates computed from the
    two raw fields; no other message type has the tag 1, 2, 3 or 18. *)
Lemma decode_binary_position (binary : string) (d : dict) (t : Z) :
  decode_binary binary = Ok d ->
  get d "msg_type" = Some (VInt t) ->
  In t [1; 2; 3; 18] ->
  exists raw_lon raw_lat,
    int_field binary (lon_start t) (lon_start t + 28) = Ok raw_lon
    /\ int_field binary (lon_start t + 28) (lon_start t + 55) = Ok raw_lat
    /\ get d "longitude" = Some (VFloat (lon_of_raw raw_lon))
    /\ get d "latitude" = Some (VFloat (lat_of_raw raw_lat)).
Proof.
  unfold decode_binary. intros H Ht Hin.
  destruct (int_field binary 0 6) as [t0|] eqn:E0; [|discriminate H].
  cbn [bind] in H.
  assert (Hsame : get d "msg_type" = Some (VInt t0) -> t0 = t) by congruence.
  destruct ((t0 =? 1) || (t0 =? 2) || (t0 =? 3)) eqn:Ea.
  - destruct (decode_position_a_inv _ _ _ H)
      as (raw_lon & raw_lat & H1 & H2 & H3 & H4 & H5).
    specialize (Hsame H3). subst t0.
    assert (Et : lon_start t = 61%nat).
    { unfold lon_start. destruct (Z.eqb_spec t 18); [|reflexivity].
      subst t. discriminate Ea. }
    rewrite Et. now exists raw_lon, raw_lat.
  - destruct (Z.eqb_spec t0 5) as [E5|E5].
    + apply decode_static_voyage_type in H. specialize (Hsame H).
      simpl in Hin. lia.
    + destruct (Z.eqb_spec t0 18) as [E18|E18].
      * destruct (decode_position_b_inv _ _ _ H)
          as (raw_lon & raw_lat & H1 & H2 & H3 & H4 & H5).
        specialize (Hsame H3). subst t0 t. now exists raw_lon, raw_lat.
      * assert (Hd : get d "msg_type" = Some (VInt t0)).
        { destruct (t0 =? 24).
          - now apply decode_static_report_type in H.
          - injection H as <-. reflexivity. }
        specialize (Hsame Hd). subst t0.
        apply orb_false_iff in Ea as [Ea E3].
        apply orb_false_iff in Ea as [E1 E2].
        apply Z.eqb_neq in E1, E2, E3. simpl in Hin. lia.
Qed.

Lemma lon_of_raw_signed (raw : Z) :
  lon_of_raw raw = Qmake (signed_value 28 raw) 600000.
Proof.
  unfold lon_of_raw, signed_value.
  change (2 ^ (28 - 1)) with 0x8000000. change (2 ^ 28) with 0x10000000.
  destruct (raw >=? 0x8000000); reflexivity.
Qed.

Lemma lat_of_raw_signed (raw : Z) :
  lat_of_raw raw = Qmake (signed_value 27 raw) 600000.
Proof.
  unfold lat_of_raw, signed_value.
  change (2 ^ (27 - 1)) with 0x4000000. change (2 ^ 27) with 0x8000000.
  destruct (raw >=? 0x4000000); reflexivity.
Qed.

Lemma signed_value_range (n : nat) (raw : Z) :
  - 2 ^ Z.of_nat n < raw < 2 ^ Z.of_nat (S n) ->
  - 2 ^ Z.of_nat n <= signed_value (Z.of_nat (S n)) raw < 2 ^ Z.of_nat n.
Proof.
  intros H. unfold signed_value.
  replace (Z.of_nat (S n) - 1) with (Z.of_nat n) by lia.
  rewrite Nat2Z.inj_succ, Z.pow_succ_r in * by lia.
  destruct (Z.geb_spec raw (2 ^ Z.of_nat n)); lia.
Qed.

End Decoder.

(** ** The sentence parser *)

Section Parser.

Lemma split_length (sep : ascii) (s : string) :
  List.length (split sep s) = S (count_char sep s).
Proof.
  induction s as [|c s IH]; [reflexivity|].
  cbn [split count_char]. destruct (Ascii.eqb c sep).
  - cbn [List.length]. rewrite IH. reflexivity.
  - destruct (split sep s) as [|piece pieces]; [discriminate IH|].
    cbn [List.length] in *. lia.
Qed.

Lemma split_none (sep : ascii) (s : string) :
  count_char sep s = 0%nat -> split sep s = [s].
Proof.
  induction s as [|c s IH]; [reflexivity|].
  cbn [split count_char]. destruct (Ascii.eqb c sep); [discriminate|].
  intros H. rewrite (IH H). reflexivity.
Qed.

Lemma split_once (sep : ascii) (s : string) :
  count_char sep s = 1%nat -> split sep s = [before sep s; after sep s].
Proof.
  induction s as [|c s IH]; [discriminate|].
  cbn [split count_char before after]. destruct (Ascii.eqb c sep).
  - intros H. rewrite split_none by lia. reflexivity.
  - intros H. rewrite (IH H). reflexivity.
Qed.

Lemma fill_bits_of_value (s : string) :
  fill_bits_of s = match fill_bits_value s with
                   | Some v => Ok v
                   | None => Raise ValueError
                   end.
Proof. destruct s; reflexivity. Qed.

(** The [try] block of [parse_nmea], in the vocabulary of the
    specification. *)
Lemma parse_body_spec (line : string) :
  parse_body line
  = if startswith line "!" && (count_char "*" line =? 1)%nat
       && (7 <=? List.length (fields_of line))%nat
    then
      fragment_count <- int 10 (field line 1) ;;
      fragment_number <- int 10 (field line 2) ;;
      fill_bits <- fill_bits_of (field line 6) ;;
      Ok (sentence line fragment_count fragment_number fill_bits)
    else Raise ValueError.
Proof.
  unfold parse_body. destruct (startswith line "!"); [|reflexivity].
  cbn [negb andb].
  destruct (Nat.eqb_spec (count_char "*" line) 1) as [E1|E1].
  - rewrite (split_once _ _ E1). fold (fields_of line).
    destruct (Nat.leb_spec 7 (List.length (fields_of line))) as [H7|H7].
    + replace (List.length (fields_of line) <? 7)%nat with false
        by (symmetry; apply Nat.ltb_ge; exact H7).
      cbn [andb]. unfold sentence, attached, raw_fields, field.
      destruct (int 10 (nth 1 (fields_of line) "")); [|reflexivity].
      destruct (int 10 (nth 2 (fields_of line) "")); [|reflexivity].
      destruct (fill_bits_of (nth 6 (fields_of line) "")); [|reflexivity].
      cbn [bind].
      destruct (decode_payload (nth 5 (fields_of line) "")) as [d|];
        [|reflexivity].
      destruct (truthy (Some d)); reflexivity.
    + replace (List.length (fields_of line) <? 7)%nat with true
        by (symmetry; apply Nat.ltb_lt; exact H7).
      reflexivity.
  - pose proof (split_length "*" line) as Hl.
    destruct (split "*" line) as [|a [|b [|c l]]]; cbn [List.length] in Hl;
      try reflexivity.
    exfalso. apply E1. lia.
Qed.

Lemma int_is_integer (s : string) :
  int 10 s = match int_literal 10 s with
             | Some v => Ok v
             | None => Raise ValueError
             end.
Proof. reflexivity. Qed.

(** A well-formed line is parsed into its sentence. *)
Lemma parse_nmea_well_formed (line : string) :
  well_formed line = true ->
  exists fragment_count fragment_number fill_bits,
    int_literal 10 (field line 1) = Some fragment_count
    /\ int_literal 10 (field line 2) = Some fragment_number
    /\ fill_bits_value (field line 6) = Some fill_bits
    /\ parse_nmea line
       = Some (sentence line fragment_count fragment_number fill_bits).
Proof.
  unfold well_formed, is_integer. intros H.
  apply andb_true_iff in H as [H H6].
  apply andb_true_iff in H as [H H2].
  apply andb_true_iff in H as [H H1].
  unfold parse_nmea. rewrite parse_body_spec, H. clear H.
  destruct (int_literal 10 (field line 1)) as [fc|] eqn:E1; [|discriminate].
  destruct (int_literal 10 (field line 2)) as [fn|] eqn:E2; [|discriminate].
  assert (E6 : exists fb, fill_bits_value (field line 6) = Some fb).
  { destruct (field line 6) as [|c s] eqn:E; [now exists 0|].
    cbn [fill_bits_value]. simpl String.eqb in H6. cbn [orb] in H6.
    destruct (int_literal 10 (String c s)) as [fb|]; [now exists fb|].
    discriminate. }
  destruct E6 as [fb E6]. exists fc, fn, fb. repeat split; auto.
  rewrite !int_is_integer, E1, E2, fill_bits_of_value, E6. reflexivity.
Qed.

(** Any other line makes [parse_nmea] return [None]. *)
Lemma parse_nmea_ill_formed (line : string) :
  well_formed line = false -> parse_nmea line = None.
Proof.
  unfold well_formed, is_integer. intros H.
  unfold parse_nmea. rewrite parse_body_spec.
  destruct (startswith line "!" && (count_char "*" line =? 1)%nat
            && (7 <=? List.length (fields_of line))%nat); [|reflexivity].
  cbn [andb] in H. rewrite !int_is_integer, fill_bits_of_value.
  destruct (int_literal 10 (field line 1)); [|reflexivity].
  destruct (int_literal 10 (field line 2)); [|reflexivity].
  cbn [andb bind] in *.
  destruct (field line 6) as [|c s]; [discriminate H|].
  cbn [fill_bits_value]. simpl String.eqb in H. cbn [orb] in H.
  destruct (int_literal 10 (String c s)); [discriminate H | reflexivity].
Qed.

Lemma parse_nmea_none (line : string) :
  parse_nmea line = None <-> well_formed line = false.
Proof.
  split; [|apply parse_nmea_ill_formed].
  destruct (well_formed line) eqn:E; [|reflexivity].
  destruct (parse_nmea_well_formed line E) as (fc & fn & fb & _ & _ & _ & H).
  congruence.
Qed.

Lemma sentence_payload (line : string) (fc fn fb : Z) :
  get (sentence line fc fn fb) "payload" = Some (VStr (field line 5))
  /\ get (sentence line fc fn fb) "decoded" = attached (field line 5).
Proof.
  unfold sentence. destruct (attached (field line 5)); split; reflexivity.
Qed.

End Parser.

(** ** Short payloads *)

Section Truncation.

(** Rewrites every field read of a bit string into its length test. *)
Ltac field_reads bits :=
  rewrite ?(int_field_bits bits) by lia;
  rewrite ?slice_bits, ?decode_string_bits.

(** Decides the length tests one after the other. *)
Ltac case_reads :=
  repeat match goal with
         | |- context [(?a <? List.length ?bits)%nat] =>
             destruct (Nat.ltb_spec a (List.length bits));
             cbn [bind try_except andb]
         end.

Ltac close_read := split; intros; try discriminate; try lia; auto.

Lemma decode_binary_bits (bits : BitString) (t : Z) :
  int_field (bits_text bits) 0 6 = Ok t ->
  try_except (decode_binary (bits_text bits)) = None
  <-> (List.length bits <= last_field_start bits t)%nat.
Proof.
  intros Ht. unfold decode_binary. rewrite Ht. cbn [bind].
  unfold last_field_start.
  rewrite int_field_bits in Ht by lia.
  destruct (Nat.ltb_spec 0 (List.length bits)) as [Hpos|]; [|discriminate].
  clear Ht.
  destruct ((t =? 1) || (t =? 2) || (t =? 3)).
  { unfold decode_position_a. field_reads bits. case_reads; close_read. }
  destruct (t =? 5).
  { unfold decode_static_voyage. field_reads bits. case_reads; close_read. }
  destruct (t =? 18).
  { unfold decode_position_b. field_reads bits. case_reads; close_read. }
  destruct (t =? 24); [|cbn [try_except]; close_read].
  unfold decode_static_report. field_reads bits.
  destruct (Nat.ltb_spec 38 (List.length bits)) as [H38|H38].
  - cbn [andb].
    replace (6 <? List.length bits)%nat with true
      by (symmetry; apply Nat.ltb_lt; lia).
    replace (8 <? List.length bits)%nat with true
      by (symmetry; apply Nat.ltb_lt; lia).
    cbn [bind].
    destruct (Z.eqb_spec (unsigned (bit_range bits 38 40)) 0) as [E0|E0].
    + rewrite E0. cbn [Z.eqb bind try_except]. close_read.
    + destruct (Z.eqb_spec (unsigned (bit_range bits 38 40)) 1) as [E1|E1].
      * case_reads; close_read.
      * cbn [try_except]. close_read.
  - cbn [andb]. case_reads; close_read.
Qed.

End Truncation.

(** ** Characters outside the armoring alphabet *)

Section OutOfRange.

Lemma out_of_range_text_all (c : ascii) :
  in_range c = false -> out_of_range_text c = true.
Proof.
  destruct c as [[] [] [] [] [] [] [] []]; vm_compute;
    intros H; try reflexivity; discriminate H.
Qed.

Lemma armor_to_bits_app (pre rest : string) :
  armor_to_bits (pre ++ rest) = armor_to_bits pre ++ armor_to_bits rest.
Proof.
  unfold armor_to_bits. rewrite !armor_loop_text. cbn [append].
  induction pre as [|c pre IH]; [reflexivity|].
  cbn [append armor_text]. now rewrite IH, append_assoc.
Qed.

Lemma decode_first_out_of_range (c : ascii) (rest : string) :
  in_range c = false ->
  exists t, first_type c = Some t
            /\ (t < 0 \/ 32 <= t <= 63)
            /\ decode_payload (String c rest) = Some [("msg_type", VInt t)].
Proof.
  intros H. apply out_of_range_text_all in H. unfold out_of_range_text in H.
  apply andb_true_iff in H as [H Ht]. apply andb_true_iff in H as [Hlen _].
  apply Nat.leb_le in Hlen.
  destruct (first_type c) as [t|] eqn:Et; [|discriminate].
  exists t. split; [reflexivity|].
  assert (Hr : t < 0 \/ 32 <= t <= 63).
  { apply orb_true_iff in Ht as [Ht|Ht]; [left; now apply Z.ltb_lt|].
    apply andb_true_iff in Ht as [H1 H2]. apply Z.leb_le in H1, H2. lia. }
  split; [exact Hr|].
  unfold decode_payload, decode_binary, int_field, slice.
  rewrite armor_to_bits_cons, substring_append_l by (simpl; lia).
  unfold first_type, slice in Et. unfold int. rewrite Et. cbn [bind].
  replace (t =? 1) with false by (symmetry; apply Z.eqb_neq; lia).
  replace (t =? 2) with false by (symmetry; apply Z.eqb_neq; lia).
  replace (t =? 3) with false by (symmetry; apply Z.eqb_neq; lia).
  replace (t =? 5) with false by (symmetry; apply Z.eqb_neq; lia).
  replace (t =? 18) with false by (symmetry; apply Z.eqb_neq; lia).
  replace (t =? 24) with false by (symmetry; apply Z.eqb_neq; lia).
  reflexivity.
Qed.

End OutOfRange.

(** ** The model on the inputs of the design document *)

Section Samples.

Example sample_line_parsed :
  parse_nmea sample_line
  = Some [("message_type", VStr "!AIVDM"); ("fragment_count", VInt 1);
          ("fragment_number", VInt 1); ("message_id", VStr "");
          ("channel", VStr "A"); ("payload", VStr sample_payload);
          ("fill_bits", VInt 0); ("checksum", VStr "5C");
          ("decoded", VDict sample_report)].
Proof. vm_compute. reflexivity. Qed.

Example format_06b_samples :
  map format_06b [-48; -32; -31; -1; 0; 63; 64; 199]
  = ["-110000"; "-100000"; "-11111"; "-00001"; "000000"; "111111";
     "1000000"; "11000111"].
Proof. reflexivity. Qed.

Example int_samples :
  map (int_literal 2) ["-00001"; "0-0001"; ""; "0"; "0b11"; "101"]
  = [Some (-1); None; None; Some 0; Some 3; Some 5]
  /\ map (int_literal 10) [" 12 "; "1_0"; "+7"; ""; "1__0"; "x"; "0b1"]
     = [Some 12; Some 10; Some 7; None; None; None; None].
Proof. split; reflexivity. Qed.

Example decode_string_samples :
  decode_string "000001000010000" = Ok "AB"
  /\ decode_string "100000000001100000" = Ok "A"
  /\ decode_string "000001000000000010" = Ok "A"
  /\ decode_string "0-0001" = Raise ValueError.
Proof. repeat split; reflexivity. Qed.

Example empty_payload_fails : decode_payload "" = None.
Proof. reflexivity. Qed.

End Samples.

(** * The claims of the design document *)

Section Claims.

(** C1, as stated, fails: a payload of message type 1 with 138 bits, fewer
    than the 143 bits of its layout, is decoded; its timestamp is read from
    the single bit that is left of the field. *)
Lemma C1_short_position_report_decoded :
  valid_payload short_payload = true
  /\ int_field (armor_to_bits short_payload) 0 6 = Ok 1
  /\ String.length (armor_to_bits short_payload) = 138%nat
  /\ slice (armor_to_bits short_payload) 137 143 = "0"
  /\ decode_payload short_payload = Some short_report.
Proof. repeat split; vm_compute; reflexivity. Qed.

(** C1, amended: for a payload over the armoring alphabet with dispatched
    message type [t], [decode_payload] fails exactly when the bit string
    does not reach past the first bit of the last integer field read for
    that type (137 for types 1 to 3, 264 for type 5, 133 for type 18, 38 for
    type 24 and 156 for its part B); in particular every payload of type 5
    with fewer than 270 bits fails. *)
Theorem C1_truncated_payload (payload : string) (t : Z) :
  valid_payload payload = true ->
  int_field (armor_to_bits payload) 0 6 = Ok t ->
  (decode_payload payload = None
   <-> (6 * String.length payload
        <= last_field_start (payload_bits payload) t)%nat)
  /\ (t = 5 -> (6 * String.length payload < 270)%nat ->
      decode_payload payload = None).
Proof.
  intros Hv Ht. unfold decode_payload. rewrite (armor_valid _ Hv) in *.
  pose proof (decode_binary_bits _ _ Ht) as H.
  rewrite payload_bits_length in H. split; [exact H|].
  intros -> Hlen. apply H. cbn. lia.
Qed.

Lemma C1_truncated_payload_witness :
  decode_payload "50000000000000000000000000000000000000000000" = None.
Proof.
  apply (proj2 (C1_truncated_payload
                  "50000000000000000000000000000000000000000000" 5
                  eq_refl eq_refl)); [reflexivity | vm_compute; lia].
Defined.

(** C2: the code computes the longitude from the 28-bit and the latitude
    from the 27-bit two's-complement value of the raw field, before dividing
    by 600000: a decoded position report carries these quotients; raw
    0xFFFFFFF gives -1, raw 0 gives 0, and raw 0x8000000 gives -2^27, the
    least value of any 28-bit raw field. *)
Theorem C2_signed_fields (payload : string) (d : dict) (t r : Z) :
  decode_payload payload = Some d ->
  get d "msg_type" = Some (VInt t) ->
  In t [1; 2; 3; 18] ->
  (exists raw_lon raw_lat,
      int_field (armor_to_bits payload) (lon_start t) (lon_start t + 28)
      = Ok raw_lon
      /\ int_field (armor_to_bits payload) (lon_start t + 28)
           (lon_start t + 55) = Ok raw_lat
      /\ get d "longitude"
         = Some (VFloat (Qmake (signed_value 28 raw_lon) 600000))
      /\ get d "latitude"
         = Some (VFloat (Qmake (signed_value 27 raw_lat) 600000)))
  /\ lon_of_raw r = Qmake (signed_value 28 r) 600000
  /\ lat_of_raw r = Qmake (signed_value 27 r) 600000
  /\ lon_of_raw 0xFFFFFFF = Qmake (-1) 600000
  /\ lon_of_raw 0 = Qmake 0 600000
  /\ lon_of_raw 0x8000000 = Qmake (- 2 ^ 27) 600000
  /\ signed_value 28 0x8000000 <= signed_value 28 (r mod 2 ^ 28).
Proof.
  intros Hd Ht Hin. unfold decode_payload in Hd.
  destruct (decode_binary (armor_to_bits payload)) as [d'|] eqn:E;
    [|discriminate Hd].
  injection Hd as ->.
  destruct (decode_binary_position _ _ _ E Ht Hin)
    as (raw_lon & raw_lat & H1 & H2 & H3 & H4).
  split.
  - exists raw_lon, raw_lat.
    rewrite <- lon_of_raw_signed, <- lat_of_raw_signed. auto.
  - repeat split; try apply lon_of_raw_signed; try apply lat_of_raw_signed.
    pose proof (Z.mod_pos_bound r (2 ^ 28) eq_refl) as Hr.
    pose proof (signed_value_range 27 (r mod 2 ^ 28)) as Hs.
    change (Z.of_nat 28) with 28 in Hs. change (Z.of_nat 27) with 27 in Hs.
    change (signed_value 28 134217728) with (- 2 ^ 27).
    apply Hs. lia.
Qed.

Lemma C2_signed_fields_witness :
  exists raw_lon raw_lat,
    int_field (armor_to_bits sample_payload) 61 89 = Ok raw_lon
    /\ int_field (armor_to_bits sample_payload) 89 116 = Ok raw_lat
    /\ get sample_report "longitude"
       = Some (VFloat (Qmake (signed_value 28 raw_lon) 600000))
    /\ get sample_report "latitude"
       = Some (VFloat (Qmake (signed_value 27 raw_lat) 600000)).
Proof.
  exact (proj1 (C2_signed_fields sample_payload sample_report 1 0
                  eq_refl eq_refl (or_introl eq_refl))).
Defined.

(** C3, as stated, fails: the position report whose raw coordinate fields
    hold the sign bits alone is decoded with longitude -134217728/600000,
    below -180, and latitude -67108864/600000, below -90. *)
Lemma C3_coordinates_out_of_range :
  exists d,
    decode_payload extreme_payload = Some d
    /\ get d "msg_type" = Some (VInt 1)
    /\ get d "longitude" = Some (VFloat (Qmake (-134217728) 600000))
    /\ get d "latitude" = Some (VFloat (Qmake (-67108864) 600000))
    /\ ~ (-180 <= Qmake (-134217728) 600000)%Q
    /\ ~ (-90 <= Qmake (-67108864) 600000)%Q.
Proof.
  eexists. split; [vm_compute; reflexivity|].
  repeat split; try reflexivity; intros H; vm_compute in H; apply H;
    reflexivity.
Qed.

(** C3, amended: for every decoded message of type 1, 2, 3 or 18 the
    longitude is the two's-complement value of the 28-bit raw field over
    600000 and lies in [-2^27/600000, 2^27/600000), the latitude is that of
    the 27-bit raw field and lies in [-2^26/600000, 2^26/600000); no value
    is clamped or rejected, so the raw fields 108600000 and 54600000 decode
    to 181 and 91. *)
Theorem C3_coordinate_range (payload : string) (d : dict) (t : Z) :
  decode_payload payload = Some d ->
  get d "msg_type" = Some (VInt t) ->
  In t [1; 2; 3; 18] ->
  exists raw_lon raw_lat,
    int_field (armor_to_bits payload) (lon_start t) (lon_start t + 28)
    = Ok raw_lon
    /\ int_field (armor_to_bits payload) (lon_start t + 28)
         (lon_start t + 55) = Ok raw_lat
    /\ get d "longitude" = Some (VFloat (lon_of_raw raw_lon))
    /\ get d "latitude" = Some (VFloat (lat_of_raw raw_lat))
    /\ (Qmake (- 2 ^ 27) 600000 <= lon_of_raw raw_lon)%Q
    /\ (lon_of_raw raw_lon < Qmake (2 ^ 27) 600000)%Q
    /\ (Qmake (- 2 ^ 26) 600000 <= lat_of_raw raw_lat)%Q
    /\ (lat_of_raw raw_lat < Qmake (2 ^ 26) 600000)%Q.
Proof.
  intros Hd Ht Hin. unfold decode_payload in Hd.
  destruct (decode_binary (armor_to_bits payload)) as [d'|] eqn:E;
    [|discriminate Hd].
  injection Hd as ->.
  destruct (decode_binary_position _ _ _ E Ht Hin)
    as (raw_lon & raw_lat & H1 & H2 & H3 & H4).
  exists raw_lon, raw_lat. repeat (split; [assumption|]).
  pose proof (int_field_bounds _ _ _ _ H1) as B1.
  pose proof (int_field_bounds _ _ _ _ H2) as B2.
  replace (lon_start t + 28 - lon_start t)%nat with 28%nat in B1 by lia.
  replace (lon_start t + 55 - (lon_start t + 28))%nat with 27%nat in B2 by lia.
  change (Z.of_nat 28) with 28 in B1. change (Z.of_nat 27) with 27 in B2.
  pose proof (signed_value_range 27 raw_lon) as S1.
  pose proof (signed_value_range 26 raw_lat) as S2.
  change (Z.of_nat 28) with 28 in S1. change (Z.of_nat 27) with 27 in S1, S2.
  change (Z.of_nat 26) with 26 in S2.
  rewrite lon_of_raw_signed, lat_of_raw_signed.
  unfold Qle, Qlt. cbn [Qnum Qden].
  change (28 - 1) with 27 in B1. change (27 - 1) with 26 in B2.
  assert (- 2 ^ 26 < raw_lat < 2 ^ 27) by lia.
  assert (- 2 ^ 27 < raw_lon < 2 ^ 28) by lia.
  specialize (S1 ltac:(assumption)). specialize (S2 ltac:(assumption)).
  repeat split; lia.
Qed.

Lemma C3_coordinate_range_witness :
  exists raw_lon raw_lat,
    int_field (armor_to_bits unavailable_payload) 61 89 = Ok raw_lon
    /\ int_field (armor_to_bits unavailable_payload) 89 116 = Ok raw_lat
    /\ get unavailable_report "longitude" = Some (VFloat (lon_of_raw raw_lon))
    /\ get unavailable_report "latitude" = Some (VFloat (lat_of_raw raw_lat))
    /\ (Qmake (- 2 ^ 27) 600000 <= lon_of_raw raw_lon)%Q
    /\ (lon_of_raw raw_lon < Qmake (2 ^ 27) 600000)%Q
    /\ (Qmake (- 2 ^ 26) 600000 <= lat_of_raw raw_lat)%Q
    /\ (lat_of_raw raw_lat < Qmake (2 ^ 26) 600000)%Q.
Proof.
  exact (C3_coordinate_range unavailable_payload unavailable_report 1
           eq_refl eq_refl (or_introl eq_refl)).
Defined.

(** The raw fields 108600000 and 54600000 are decoded as 181 and 91. *)
Lemma unavailable_preserved :
  decode_payload unavailable_payload = Some unavailable_report
  /\ (Qmake 108600000 600000 == 181)%Q
  /\ (Qmake 54600000 600000 == 91)%Q.
Proof. repeat split; vm_compute; reflexivity. Qed.

(** C4, as stated, fails: the sample payload followed by ["/"], which maps
    to -1, is converted and decoded without failure, into the same report
    as the sample payload. *)
Lemma C4_out_of_range_character_decoded :
  in_range "/" = false
  /\ sixbit "/" = -1
  /\ valid_payload (sample_payload ++ "/") = false
  /\ armor_to_bits (sample_payload ++ "/")
     = armor_to_bits sample_payload ++ "-00001"
  /\ decode_payload (sample_payload ++ "/") = Some sample_report.
Proof. repeat split; vm_compute; reflexivity. Qed.

(** C4, amended: the conversion has no range check and fails for no
    payload. A character whose mapped value [v] falls outside [0, 63]
    contributes the text of [format(v, '06b')] between the texts of its
    neighbours: a text of six or more characters that starts with a minus
    sign or has more than six digits. When such a character comes first,
    [decode_payload] does not fail either: it returns a result that carries
    the message type alone, a negative number or one in [32, 63]. *)
Theorem C4_out_of_range_character (pre rest : string) (c : ascii) :
  in_range c = false ->
  armor_to_bits (pre ++ String c rest)
  = armor_to_bits pre ++ format_06b (sixbit c) ++ armor_to_bits rest
  /\ (6 <= String.length (format_06b (sixbit c)))%nat
  /\ (startswith (format_06b (sixbit c)) "-" = true
      \/ (6 < String.length (format_06b (sixbit c)))%nat)
  /\ exists t,
      (t < 0 \/ 32 <= t <= 63)
      /\ decode_payload (String c rest) = Some [("msg_type", VInt t)].
Proof.
  intros H. split; [|split; [|split]].
  - now rewrite armor_to_bits_app, armor_to_bits_cons.
  - apply out_of_range_text_all in H. unfold out_of_range_text in H.
    apply andb_true_iff in H as [H _]. apply andb_true_iff in H as [H _].
    now apply Nat.leb_le.
  - apply out_of_range_text_all in H. unfold out_of_range_text in H.
    apply andb_true_iff in H as [H _]. apply andb_true_iff in H as [_ H].
    apply orb_true_iff in H as [H|H]; [now left | right].
    now apply Nat.ltb_lt.
  - destruct (decode_first_out_of_range c rest H) as (t & _ & Ht & Hd).
    now exists t.
Qed.

Lemma C4_out_of_range_character_witness :
  armor_to_bits ("1" ++ String "/" "0")
  = armor_to_bits "1" ++ format_06b (sixbit "/") ++ armor_to_bits "0"
  /\ (6 <= String.length (format_06b (sixbit "/")))%nat
  /\ (startswith (format_06b (sixbit "/")) "-" = true
      \/ (6 < String.length (format_06b (sixbit "/")))%nat)
  /\ exists t,
      (t < 0 \/ 32 <= t <= 63)
      /\ decode_payload (String "/" "0") = Some [("msg_type", VInt t)].
Proof. exact (C4_out_of_range_character "1" "0" "/" eq_refl). Defined.





(** C7: on every range of a BitString [decode_string] does not fail and
    returns the text of the specification: the 6-bit groups up to the first
    zero group, 64 added to the values below 32, trailing ["@"] and
    surrounding white space stripped. The result does not end in ["@"] or
    in white space, and the empty range gives the empty text. *)
Theorem C7_bits_to_text (bits : BitString) (start_ end_ : nat) :
  decode_string (slice (bits_text bits) start_ end_)
  = Ok (bits_to_text (bit_range bits start_ end_))
  /\ ends_with (Ascii.eqb "@") (bits_to_text (bit_range bits start_ end_))
     = false
  /\ ends_with is_py_space (bits_to_text (bit_range bits start_ end_)) = false
  /\ decode_string (slice (bits_text bits) start_ start_) = Ok "".
Proof.
  rewrite slice_bits, decode_string_bits.
  destruct (bits_to_text_ends (bit_range bits start_ end_)) as [H1 H2].
  repeat split; auto.
  rewrite slice_bits, decode_string_bits. unfold bit_range.
  rewrite Nat.sub_diag. reflexivity.
Qed.

(** C8: when the first six places of the binary text read as a message
    type outside 1, 2, 3, 5, 18 and 24, [decode_payload] does not fail and
    returns a result that carries that message type alone. *)
Theorem C8_unrecognized (payload : string) (t : Z) :
  int_field (armor_to_bits payload) 0 6 = Ok t ->
  ~ In t [1; 2; 3; 5; 18; 24] ->
  decode_payload payload = Some [("msg_type", VInt t)].
Proof.
  intros Ht Hin. unfold decode_payload, decode_binary. rewrite Ht.
  cbn [bind]. simpl in Hin.
  replace (t =? 1) with false by (symmetry; apply Z.eqb_neq; intuition auto).
  replace (t =? 2) with false by (symmetry; apply Z.eqb_neq; intuition auto).
  replace (t =? 3) with false by (symmetry; apply Z.eqb_neq; intuition auto).
  replace (t =? 5) with false by (symmetry; apply Z.eqb_neq; intuition auto).
  replace (t =? 18) with false by (symmetry; apply Z.eqb_neq; intuition auto).
  replace (t =? 24) with false by (symmetry; apply Z.eqb_neq; intuition auto).
  reflexivity.
Qed.

Lemma C8_unrecognized_witness :
  decode_payload "w" = Some [("msg_type", VInt 63)].
Proof.
  apply (C8_unrecognized "w" 63 eq_refl).
  simpl. intros H. repeat destruct H as [H|H]; try discriminate H. exact H.
Defined.



(** C10: what [parse_nmea] attaches under ["decoded"] depends on the
    payload field alone: two parsed sentences with the same payload field
    carry the same decoded result, whatever their other fields are. *)
Theorem C10_decoded_depends_on_payload (line1 line2 : string)
  (parsed1 parsed2 : dict) :
  parse_nmea line1 = Some parsed1 ->
  parse_nmea line2 = Some parsed2 ->
  get parsed1 "payload" = get parsed2 "payload" ->
  get parsed1 "decoded" = get parsed2 "decoded".
Proof.
  intros H1 H2 Hp.
  assert (W1 : well_formed line1 = true).
  { destruct (well_formed line1) eqn:E; [reflexivity|].
    apply parse_nmea_none in E. congruence. }
  assert (W2 : well_formed line2 = true).
  { destruct (well_formed line2) eqn:E; [reflexivity|].
    apply parse_nmea_none in E. congruence. }
  destruct (parse_nmea_well_formed line1 W1) as (fc1 & fn1 & fb1 & _ & _ & _ & E1).
  destruct (parse_nmea_well_formed line2 W2) as (fc2 & fn2 & fb2 & _ & _ & _ & E2).
  rewrite E1 in H1. rewrite E2 in H2.
  injection H1 as <-. injection H2 as <-.
  destruct (sentence_payload line1 fc1 fn1 fb1) as [P1 D1].
  destruct (sentence_payload line2 fc2 fn2 fb2) as [P2 D2].
  rewrite P1, P2 in Hp. injection Hp as Hp.
  rewrite D1, D2, Hp. reflexivity.
Qed.

Lemma C10_decoded_depends_on_payload_witness :
  get (sentence sample_line 1 1 0) "decoded"
  = get (sentence "!AIVDO,2,1,7,B,15M67FC000G?ufbE`FepT@3n00Sa,4*00" 2 1 4)
      "decoded".
Proof.
  apply (C10_decoded_depends_on_payload sample_line
           "!AIVDO,2,1,7,B,15M67FC000G?ufbE`FepT@3n00Sa,4*00");
    vm_compute; reflexivity.
Defined.

End Claims.

(** * Further properties of the code *)

(** ** What every decoded message carries *)

Section DecodedShape.

Ltac split_binds H :=
  repeat match type of H with
         | bind ?r _ = Ok _ =>
             let E := fresh "E" in
             destruct r eqn:E; cbn [bind] in H; [|discriminate H]
         end.

(** The first entry of a decoded message is its type. *)
Lemma decode_binary_head (binary : string) (d : dict) :
  decode_binary binary = Ok d ->
  exists t rest,
    int_field binary 0 6 = Ok t /\ d = ("msg_type", VInt t) :: rest.
Proof.
  unfold decode_binary. intros H.
  destruct (int_field binary 0 6) as [t|] eqn:E0; [|discriminate H].
  cbn [bind] in H. exists t.
  destruct ((t =? 1) || (t =? 2) || (t =? 3)).
  { unfold decode_position_a in H. split_binds H. injection H as <-.
    eexists. split; reflexivity. }
  destruct (t =? 5).
  { unfold decode_static_voyage in H. split_binds H. injection H as <-.
    eexists. split; reflexivity. }
  destruct (t =? 18).
  { unfold decode_position_b in H. split_binds H. injection H as <-.
    eexists. split; reflexivity. }
  destruct (t =? 24).
  { unfold decode_static_report in H. split_binds H.
    destruct (a1 =? 0).
    - split_binds H. injection H as <-. eexists. split; reflexivity.
    - destruct (a1 =? 1).
      + split_binds H. injection H as <-. eexists. split; reflexivity.
      + injection H as <-. eexists. split; reflexivity. }
  injection H as <-. eexists. split; reflexivity.
Qed.

(** X1: a decoded message always starts with the entry ["msg_type"], whose
    value is the number read from the first six places of the binary text;
    it lies strictly between -32 and 64. *)
Theorem decoded_message_type (payload : string) (d : dict) :
  decode_payload payload = Some d ->
  exists t rest,
    int_field (armor_to_bits payload) 0 6 = Ok t
    /\ d = ("msg_type", VInt t) :: rest
    /\ get d "msg_type" = Some (VInt t)
    /\ -32 < t < 64.
Proof.
  unfold decode_payload. intros H.
  destruct (decode_binary (armor_to_bits payload)) as [d'|] eqn:E;
    [|discriminate H].
  injection H as ->.
  destruct (decode_binary_head _ _ E) as (t & rest & Ht & ->).
  exists t, rest. repeat split; auto.
  - pose proof (int_field_bounds _ _ _ _ Ht) as B. simpl in B. lia.
  - pose proof (int_field_bounds _ _ _ _ Ht) as B. simpl in B. lia.
Qed.

Lemma decoded_message_type_witness :
  exists t rest,
    int_field (armor_to_bits sample_payload) 0 6 = Ok t
    /\ sample_report = ("msg_type", VInt t) :: rest
    /\ get sample_report "msg_type" = Some (VInt t)
    /\ -32 < t < 64.
Proof. exact (decoded_message_type sample_payload sample_report eq_refl). Defined.

(** X2: a parsed sentence carries the payload field under ["payload"], and
    under ["decoded"] exactly the result of [decode_payload] on that field:
    the entry is absent if and only if decoding failed. *)
Theorem parsed_decoded_entry (line : string) (parsed : dict) :
  parse_nmea line = Some parsed ->
  get parsed "payload" = Some (VStr (field line 5))
  /\ get parsed "decoded"
     = match decode_payload (field line 5) with
       | Some d => Some (VDict d)
       | None => None
       end.
Proof.
  intros H.
  assert (W : well_formed line = true).
  { destruct (well_formed line) eqn:E; [reflexivity|].
    apply parse_nmea_none in E. congruence. }
  destruct (parse_nmea_well_formed line W) as (fc & fn & fb & _ & _ & _ & E).
  rewrite E in H. injection H as <-.
  destruct (sentence_payload line fc fn fb) as [P D].
  split; [exact P|]. rewrite D. unfold attached.
  destruct (decode_payload (field line 5)) as [d|] eqn:Ed; [|reflexivity].
  unfold decode_payload in Ed.
  destruct (decode_binary (armor_to_bits (field line 5))) as [d'|] eqn:Eb;
    [|discriminate Ed].
  injection Ed as ->.
  destruct (decode_binary_head _ _ Eb) as (t & rest & _ & ->).
  reflexivity.
Qed.

Lemma parsed_decoded_entry_witness :
  get (sentence sample_line 1 1 0) "payload"
  = Some (VStr (field sample_line 5))
  /\ get (sentence sample_line 1 1 0) "decoded"
     = match decode_payload (field sample_line 5) with
       | Some d => Some (VDict d)
       | None => None
       end.
Proof.
  apply (parsed_decoded_entry sample_line). vm_compute. reflexivity.
Defined.

End DecodedShape.

(** ** The fields of each message type, as bit ranges of the payload *)

Section Layouts.

Ltac field_reads bits :=
  rewrite ?(int_field_bits bits) by lia;
  rewrite ?slice_bits, ?decode_string_bits.

(** Every length test below [n] succeeds. *)
Ltac reads_succeed :=
  repeat match goal with
         | |- context [(?a <? List.length ?bits)%nat] =>
             replace (a <? List.length bits)%nat with true
               by (symmetry; apply Nat.ltb_lt; lia)
         end;
  cbn [bind try_except].

(** X3: for a payload over the armoring alphabet of message type 1, 2 or 3
    that reaches past bit 137, every field of the decoded message is the
    unsigned value of its bit range of the payload's BitString; the
    coordinates are the two's-complement values of their ranges over 600000,
    speed and course are tenths, and the rate of turn is left as the raw
    8-bit number. *)
Theorem position_report_a_fields (payload : string) (t : Z) :
  valid_payload payload = true ->
  int_field (armor_to_bits payload) 0 6 = Ok t ->
  In t [1; 2; 3] ->
  (137 < 6 * String.length payload)%nat ->
  decode_payload payload
  = Some [("msg_type", VInt t);
          ("repeat", VInt (payload_field payload 6 8));
          ("mmsi", VInt (payload_field payload 8 38));
          ("nav_status", VInt (payload_field payload 38 42));
          ("rot", VInt (payload_field payload 42 50));
          ("sog", VFloat (Qmake (payload_field payload 50 60) 10));
          ("pos_accuracy", VBool (negb (payload_field payload 60 61 =? 0)));
          ("longitude",
           VFloat (Qmake (signed_value 28 (payload_field payload 61 89))
                     600000));
          ("latitude",
           VFloat (Qmake (signed_value 27 (payload_field payload 89 116))
                     600000));
          ("cog", VFloat (Qmake (payload_field payload 116 128) 10));
          ("true_heading", VInt (payload_field payload 128 137));
          ("timestamp", VInt (payload_field payload 137 143))].
Proof.
  intros Hv Ht Hin Hlen. unfold decode_payload, payload_field.
  rewrite (armor_valid _ Hv) in *. rewrite <- payload_bits_length in Hlen.
  unfold decode_binary. rewrite Ht. cbn [bind].
  replace ((t =? 1) || (t =? 2) || (t =? 3)) with true
    by (simpl in Hin; symmetry; rewrite !orb_true_iff, !Z.eqb_eq;
        intuition auto).
  unfold decode_position_a. field_reads (payload_bits payload).
  reads_succeed. rewrite lon_of_raw_signed, lat_of_raw_signed. reflexivity.
Qed.

Lemma position_report_a_fields_witness :
  decode_payload sample_payload = Some sample_report.
Proof.
  apply (position_report_a_fields sample_payload 1 eq_refl eq_refl
           (or_introl eq_refl)).
  vm_compute. lia.
Defined.

(** X4: for a payload over the armoring alphabet of message type 5 that
    reaches past bit 264, the decoded message holds the unsigned values of
    the bit ranges of the static and voyage data, and call sign and ship
    name are the texts of the ranges 70-112 and 112-232. *)
Theorem static_voyage_fields (payload : string) :
  valid_payload payload = true ->
  int_field (armor_to_bits payload) 0 6 = Ok 5 ->
  (264 < 6 * String.length payload)%nat ->
  decode_payload payload
  = Some [("msg_type", VInt 5);
          ("repeat", VInt (payload_field payload 6 8));
          ("mmsi", VInt (payload_field payload 8 38));
          ("ais_version", VInt (payload_field payload 38 40));
          ("imo", VInt (payload_field payload 40 70));
          ("callsign", VStr (payload_text payload 70 112));
          ("shipname", VStr (payload_text payload 112 232));
          ("ship_type", VInt (payload_field payload 232 240));
          ("to_bow", VInt (payload_field payload 240 249));
          ("to_stern", VInt (payload_field payload 249 258));
          ("to_port", VInt (payload_field payload 258 264));
          ("to_starboard", VInt (payload_field payload 264 270))].
Proof.
  intros Hv Ht Hlen. unfold decode_payload, payload_field, payload_text.
  rewrite (armor_valid _ Hv) in *. rewrite <- payload_bits_length in Hlen.
  unfold decode_binary. rewrite Ht. cbn [bind Z.eqb Pos.eqb orb].
  unfold decode_static_voyage. field_reads (payload_bits payload).
  reads_succeed. reflexivity.
Qed.

Lemma static_voyage_fields_witness :
  decode_payload
    "55P5TL01VIaAL@7WKO@mBplU@<PDhh000000001S;AJ::4A80?4i@E531@0000000000000"
  = Some [("msg_type", VInt 5); ("repeat", VInt 0); ("mmsi", VInt 369190000);
          ("ais_version", VInt 0); ("imo", VInt 6710932);
          ("callsign", VStr "WDA9674"); ("shipname", VStr "MT.MITCHELL");
          ("ship_type", VInt 99); ("to_bow", VInt 90); ("to_stern", VInt 90);
          ("to_port", VInt 10); ("to_starboard", VInt 10)].
Proof.
  apply (static_voyage_fields
    "55P5TL01VIaAL@7WKO@mBplU@<PDhh000000001S;AJ::4A80?4i@E531@0000000000000"
    eq_refl eq_refl).
  vm_compute. lia.
Defined.

(** X5: for a payload over the armoring alphabet of message type 18 that
    reaches past bit 133, every field of the decoded message is the value of
    its bit range; the coordinates are the two's-complement values of the
    ranges 57-85 and 85-112 over 600000. *)
Theorem position_report_b_fields (payload : string) :
  valid_payload payload = true ->
  int_field (armor_to_bits payload) 0 6 = Ok 18 ->
  (133 < 6 * String.length payload)%nat ->
  decode_payload payload
  = Some [("msg_type", VInt 18);
          ("repeat", VInt (payload_field payload 6 8));
          ("mmsi", VInt (payload_field payload 8 38));
          ("sog", VFloat (Qmake (payload_field payload 46 56) 10));
          ("pos_accuracy", VBool (negb (payload_field payload 56 57 =? 0)));
          ("longitude",
           VFloat (Qmake (signed_value 28 (payload_field payload 57 85))
                     600000));
          ("latitude",
           VFloat (Qmake (signed_value 27 (payload_field payload 85 112))
                     600000));
          ("cog", VFloat (Qmake (payload_field payload 112 124) 10));
          ("true_heading", VInt (payload_field payload 124 133));
          ("timestamp", VInt (payload_field payload 133 139))].
Proof.
  intros Hv Ht Hlen. unfold decode_payload, payload_field.
  rewrite (armor_valid _ Hv) in *. rewrite <- payload_bits_length in Hlen.
  unfold decode_binary. rewrite Ht. cbn [bind Z.eqb Pos.eqb orb].
  unfold decode_position_b. field_reads (payload_bits payload).
  reads_succeed. rewrite lon_of_raw_signed, lat_of_raw_signed. reflexivity.
Qed.

Lemma position_report_b_fields_witness :
  decode_payload "B52K>;h00Fc>jpUlNV@ikwpUoP06"
  = Some [("msg_type", VInt 18); ("repeat", VInt 0); ("mmsi", VInt 338087471);
          ("sog", VFloat (Qmake 1 10)); ("pos_accuracy", VBool false);
          ("longitude", VFloat (Qmake (-44443279) 600000));
          ("latitude", VFloat (Qmake 24410724 600000));
          ("cog", VFloat (Qmake 796 10)); ("true_heading", VInt 511);
          ("timestamp", VInt 49)].
Proof.
  apply (position_report_b_fields "B52K>;h00Fc>jpUlNV@ikwpUoP06"
           eq_refl eq_refl).
  vm_compute. lia.
Defined.

(** X6: for a payload over the armoring alphabet of message type 24 that
    reaches past bit 38 and whose part number is not 1, the decoded message
    holds repeat, mmsi and part number; for part number 0 it also holds the
    ship name, the text of the bits 40-160 that are present; for the part
    numbers 2 and 3 nothing else. *)
Theorem static_report_part_a_fields (payload : string) :
  valid_payload payload = true ->
  int_field (armor_to_bits payload) 0 6 = Ok 24 ->
  (38 < 6 * String.length payload)%nat ->
  payload_field payload 38 40 <> 1 ->
  decode_payload payload
  = Some ([("msg_type", VInt 24);
           ("repeat", VInt (payload_field payload 6 8));
           ("mmsi", VInt (payload_field payload 8 38));
           ("part_no", VInt (payload_field payload 38 40))]
          ++ (if payload_field payload 38 40 =? 0
              then [("shipname", VStr (payload_text payload 40 160))]
              else []))%list.
Proof.
  intros Hv Ht Hlen Hp. unfold decode_payload, payload_field, payload_text in *.
  rewrite (armor_valid _ Hv) in *. rewrite <- payload_bits_length in Hlen.
  unfold decode_binary. rewrite Ht. cbn [bind Z.eqb Pos.eqb orb].
  unfold decode_static_report. field_reads (payload_bits payload).
  reads_succeed.
  destruct (Z.eqb_spec (unsigned (bit_range (payload_bits payload) 38 40)) 0)
    as [E0|E0].
  - reflexivity.
  - destruct (Z.eqb_spec (unsigned (bit_range (payload_bits payload) 38 40)) 1)
      as [E1|E1]; [contradiction | reflexivity].
Qed.

Lemma static_report_part_a_fields_witness :
  decode_payload "H42O55i18tMET00000000000000"
  = Some [("msg_type", VInt 24); ("repeat", VInt 0); ("mmsi", VInt 271041815);
          ("part_no", VInt 0); ("shipname", VStr "PROGUY")].
Proof.
  apply (static_report_part_a_fields "H42O55i18tMET00000000000000"
           eq_refl eq_refl).
  - vm_compute. lia.
  - vm_compute. discriminate.
Defined.

(** X7: for a payload over the armoring alphabet of message type 24 with
    part number 1 that reaches past bit 156, the decoded message holds ship
    type, vendor id, call sign and the four dimensions, each from its bit
    range. *)
Theorem static_report_part_b_fields (payload : string) :
  valid_payload payload = true ->
  int_field (armor_to_bits payload) 0 6 = Ok 24 ->
  (156 < 6 * String.length payload)%nat ->
  payload_field payload 38 40 = 1 ->
  decode_payload payload
  = Some [("msg_type", VInt 24);
          ("repeat", VInt (payload_field payload 6 8));
          ("mmsi", VInt (payload_field payload 8 38));
          ("part_no", VInt 1);
          ("ship_type", VInt (payload_field payload 40 48));
          ("vendor_id", VStr (payload_text payload 48 90));
          ("callsign", VStr (payload_text payload 90 132));
          ("to_bow", VInt (payload_field payload 132 141));
          ("to_stern", VInt (payload_field payload 141 150));
          ("to_port", VInt (payload_field payload 150 156));
          ("to_starboard", VInt (payload_field payload 156 162))].
Proof.
  intros Hv Ht Hlen Hp. unfold decode_payload, payload_field, payload_text in *.
  rewrite (armor_valid _ Hv) in *. rewrite <- payload_bits_length in Hlen.
  unfold decode_binary. rewrite Ht. cbn [bind Z.eqb Pos.eqb orb].
  unfold decode_static_report. field_reads (payload_bits payload).
  reads_succeed. rewrite Hp. cbn [Z.eqb Pos.eqb bind]. reads_succeed.
  reflexivity.
Qed.

Lemma static_report_part_b_fields_witness :
  decode_payload "H42O55lti4hhhilD3nink000?050"
  = Some [("msg_type", VInt 24); ("repeat", VInt 0); ("mmsi", VInt 271041815);
          ("part_no", VInt 1); ("ship_type", VInt 60);
          ("vendor_id", VStr "1D00014"); ("callsign", VStr "TC6163");
          ("to_bow", VInt 0); ("to_stern", VInt 15); ("to_port", VInt 0);
          ("to_starboard", VInt 5)].
Proof.
  apply (static_report_part_b_fields "H42O55lti4hhhilD3nink000?050"
           eq_refl eq_refl).
  - vm_compute. lia.
  - reflexivity.
Defined.

End Layouts.

(** ** What the decoder reads of a payload *)

Section Reads.

Lemma slice_append_l (s x : string) (a b : nat) :
  (a <= b <= String.length s)%nat -> slice (s ++ x) a b = slice s a b.
Proof. intros H. unfold slice. apply substring_append_l. lia. Qed.

Lemma decode_binary_append (binary extra : string) (t : Z) :
  int_field binary 0 6 = Ok t ->
  (layout_end t <= String.length binary)%nat ->
  decode_binary (binary ++ extra) = decode_binary binary.
Proof.
  intros Ht Hlen. unfold decode_binary.
  assert (H6 : (6 <= layout_end t)%nat).
  { unfold layout_end.
    destruct ((t =? 1) || (t =? 2) || (t =? 3)); [lia|].
    destruct (t =? 5); [lia|]. destruct (t =? 18); [lia|].
    destruct (t =? 24); lia. }
  assert (H0 : int_field (binary ++ extra) 0 6 = int_field binary 0 6).
  { unfold int_field. rewrite slice_append_l by lia. reflexivity. }
  rewrite H0, Ht. cbn [bind]. unfold layout_end in Hlen.
  destruct ((t =? 1) || (t =? 2) || (t =? 3)).
  { unfold decode_position_a, int_field.
    rewrite !(slice_append_l binary extra) by lia. reflexivity. }
  destruct (t =? 5).
  { unfold decode_static_voyage, int_field.
    rewrite !(slice_append_l binary extra) by lia. reflexivity. }
  destruct (t =? 18).
  { unfold decode_position_b, int_field.
    rewrite !(slice_append_l binary extra) by lia. reflexivity. }
  destruct (t =? 24); [|reflexivity].
  unfold decode_static_report, int_field.
  rewrite !(slice_append_l binary extra) by lia. reflexivity.
Qed.

(** X8: once the binary text of a payload covers the layout of its message
    type (143 places for types 1 to 3, 270 for type 5, 139 for type 18, 162
    for type 24, 6 for any other type), characters that follow, in or out of
    the armoring alphabet, do not change the result of [decode_payload]. *)
Theorem trailing_characters_ignored (payload suffix : string) (t : Z) :
  int_field (armor_to_bits payload) 0 6 = Ok t ->
  (layout_end t <= String.length (armor_to_bits payload))%nat ->
  decode_payload (payload ++ suffix) = decode_payload payload.
Proof.
  intros Ht Hlen. unfold decode_payload.
  rewrite armor_to_bits_app, (decode_binary_append _ _ t Ht Hlen).
  reflexivity.
Qed.

Lemma trailing_characters_ignored_witness :
  decode_payload (sample_payload ++ "0w/~") = decode_payload sample_payload.
Proof.
  apply (trailing_characters_ignored sample_payload "0w/~" 1 eq_refl).
  vm_compute. lia.
Defined.

(** X9: every integer field read from a payload over the armoring alphabet
    is non-negative and below 2 to the width of the field; so the rate of
    turn, read from 8 bits, is a number from 0 to 255 and never negative. *)
Theorem valid_payload_field_range (payload : string) (a b : nat) (v : Z) :
  valid_payload payload = true ->
  (a < b)%nat ->
  int_field (armor_to_bits payload) a b = Ok v ->
  v = payload_field payload a b /\ 0 <= v < 2 ^ Z.of_nat (b - a).
Proof.
  intros Hv Hab H. rewrite (armor_valid _ Hv), int_field_bits in H by exact Hab.
  destruct (a <? List.length (payload_bits payload))%nat; [|discriminate H].
  injection H as <-. split; [reflexivity|].
  pose proof (unsigned_bounds (bit_range (payload_bits payload) a b)) as B.
  pose proof (bit_range_length (payload_bits payload) a b) as L.
  assert (2 ^ Z.of_nat (List.length (bit_range (payload_bits payload) a b))
          <= 2 ^ Z.of_nat (b - a)) by (apply Z.pow_le_mono_r; lia).
  lia.
Qed.

Lemma valid_payload_field_range_witness :
  366053209 = payload_field sample_payload 8 38
  /\ 0 <= 366053209 < 2 ^ Z.of_nat (38 - 8).
Proof.
  exact (valid_payload_field_range sample_payload 8 38 366053209
           eq_refl ltac:(lia) eq_refl).
Defined.

End Reads.

(** ** The armoring alphabet *)

Section Alphabet.

Lemma zeros_length (n : nat) : String.length (zeros n) = n.
Proof. induction n as [|n IH]; simpl; [reflexivity | now rewrite IH]. Qed.

Lemma format_06b_length (v : Z) : (6 <= String.length (format_06b v))%nat.
Proof.
  unfold format_06b. destruct (v <? 0); cbn [String.length];
    rewrite length_append, zeros_length; lia.
Qed.

Lemma armor_to_bits_length_ge (payload : string) :
  (6 * String.length payload <= String.length (armor_to_bits payload))%nat.
Proof.
  induction payload as [|c rest IH]; [simpl; lia|].
  rewrite armor_to_bits_cons, length_append.
  pose proof (format_06b_length (sixbit c)). cbn [String.length]. lia.
Qed.

Lemma free_of_append (q : ascii -> bool) (s t : string) :
  free_of q (s ++ t) = free_of q s && free_of q t.
Proof.
  induction s as [|c s IH]; [reflexivity|].
  cbn [append free_of]. rewrite IH. now rewrite andb_assoc.
Qed.

Lemma ord_range (c : ascii) : 0 <= ord c < 256.
Proof. unfold ord. pose proof (N_ascii_bounded c). lia. Qed.

Lemma ord_inj (c c' : ascii) : ord c = ord c' -> c = c'.
Proof.
  unfold ord. intros H. apply N2Z.inj in H.
  rewrite <- (ascii_N_embedding c), <- (ascii_N_embedding c'). now rewrite H.
Qed.

(** X10: the binary text of a payload has no minus sign and exactly six
    places for each character if and only if every character of the payload
    maps into [0, 63]; in any case it has at least six places for each
    character. *)
Theorem binary_text_well_formed (payload : string) :
  (valid_payload payload = true
   <-> free_of (Ascii.eqb "-") (armor_to_bits payload) = true
       /\ String.length (armor_to_bits payload)
          = (6 * String.length payload)%nat)
  /\ (6 * String.length payload <= String.length (armor_to_bits payload))%nat.
Proof.
  split; [|apply armor_to_bits_length_ge]. split.
  - intros H. rewrite (armor_valid _ H). split.
    + apply bits_text_free; reflexivity.
    + now rewrite bits_text_length, payload_bits_length.
  - induction payload as [|c rest IH]; [reflexivity|].
    rewrite armor_to_bits_cons, free_of_append, length_append.
    cbn [String.length valid_payload]. intros [Hf Hl].
    apply andb_true_iff in Hf as [Hc Hr].
    pose proof (format_06b_length (sixbit c)) as L1.
    pose proof (armor_to_bits_length_ge rest) as L2.
    destruct (in_range c) eqn:E.
    + cbn [andb]. apply IH. split; [exact Hr | lia].
    + exfalso. apply out_of_range_text_all in E.
      unfold out_of_range_text in E.
      apply andb_true_iff in E as [E _]. apply andb_true_iff in E as [_ E].
      apply orb_true_iff in E as [E|E].
      * destruct (format_06b (sixbit c)) as [|c0 s0]; [discriminate E|].
        cbn [startswith] in E. cbn [free_of] in Hc.
        rewrite Ascii.eqb_sym, E in Hc. discriminate Hc.
      * apply Nat.ltb_lt in E. lia.
Qed.

(** X11: a character maps into [0, 63] exactly when its code is between 48
    and 119. The mapping is not one-to-one: besides equal characters, two
    characters have the same value exactly when their codes are 8 apart and
    the smaller is between 81 and 88, so ["X"] stands for the same value 40
    as the backquote. *)
Theorem armoring_alphabet (c c' : ascii) :
  (in_range c = true <-> 48 <= ord c <= 119)
  /\ (sixbit c = sixbit c'
      <-> c = c'
          \/ (81 <= ord c <= 88 /\ ord c' = ord c + 8)
          \/ (81 <= ord c' <= 88 /\ ord c = ord c' + 8)).
Proof.
  pose proof (ord_range c) as Rc. pose proof (ord_range c') as Rc'.
  split.
  - rewrite in_range_spec. unfold sixbit.
    destruct (Z.gtb_spec (ord c - 48) 40); lia.
  - unfold sixbit. split.
    + intros H.
      destruct (Z.eq_dec (ord c) (ord c')) as [E|E];
        [left; now apply ord_inj|right].
      destruct (Z.gtb_spec (ord c - 48) 40), (Z.gtb_spec (ord c' - 48) 40);
        lia.
    + intros [->|H]; [reflexivity|].
      destruct (Z.gtb_spec (ord c - 48) 40), (Z.gtb_spec (ord c' - 48) 40);
        lia.
Qed.

(** X12: on a 28-bit raw field the longitude numerator is the
    two's-complement reading: it lies in [-2^27, 2^27) and is congruent to
    the raw value modulo 2^28, so distinct raw values give distinct
    longitudes; likewise the latitude with 27 bits. *)
Theorem coordinates_two_complement (raw_lon raw_lat : Z) :
  0 <= raw_lon < 2 ^ 28 ->
  0 <= raw_lat < 2 ^ 27 ->
  (- 2 ^ 27 <= Qnum (lon_of_raw raw_lon) < 2 ^ 27
   /\ Qnum (lon_of_raw raw_lon) mod 2 ^ 28 = raw_lon
   /\ Qden (lon_of_raw raw_lon) = 600000%positive)
  /\ (- 2 ^ 26 <= Qnum (lat_of_raw raw_lat) < 2 ^ 26
      /\ Qnum (lat_of_raw raw_lat) mod 2 ^ 27 = raw_lat
      /\ Qden (lat_of_raw raw_lat) = 600000%positive).
Proof.
  intros H1 H2. unfold lon_of_raw, lat_of_raw.
  change (2 ^ 28) with 268435456 in *. change (2 ^ 27) with 134217728 in *.
  change (2 ^ 26) with 67108864 in *.
  destruct (Z.geb_spec raw_lon 134217728), (Z.geb_spec raw_lat 67108864);
    cbn [Qnum Qden]; repeat split; try lia.
  all: try (rewrite Z.mod_small by lia; reflexivity).
  all: try (symmetry; apply (Z.mod_unique _ _ (-1)); lia).
Qed.

Lemma coordinates_two_complement_witness :
  (- 2 ^ 27 <= Qnum (lon_of_raw 0xFFFFFFF) < 2 ^ 27
   /\ Qnum (lon_of_raw 0xFFFFFFF) mod 2 ^ 28 = 0xFFFFFFF
   /\ Qden (lon_of_raw 0xFFFFFFF) = 600000%positive)
  /\ (- 2 ^ 26 <= Qnum (lat_of_raw 0x4000000) < 2 ^ 26
      /\ Qnum (lat_of_raw 0x4000000) mod 2 ^ 27 = 0x4000000
      /\ Qden (lat_of_raw 0x4000000) = 600000%positive).
Proof.
  apply (coordinates_two_complement 0xFFFFFFF 0x4000000); vm_compute;
    split; congruence.
Defined.

End Alphabet.

(** ** The texts [decode_string] returns *)

Section Texts.

Lemma text_char_ais (v : Z) :
  0 < v < 64 -> ais_text_char (text_char v) = true.
Proof.
  intros H. destruct v as [|p|p]; [lia| |lia].
  do 6 (destruct p as [p|p|]; try reflexivity; try lia).
Qed.

Lemma accumulated_n_ais (n : nat) : forall bits,
  free_of (fun c => negb (ais_text_char c)) (accumulated_n n bits) = true.
Proof.
  unfold accumulated_n.
  induction n as [|n IH]; intros bits; [reflexivity|].
  cbn [groups6 map until_zero].
  destruct (Z.eqb_spec (unsigned (firstn 6 bits)) 0) as [E|E]; [reflexivity|].
  cbn [map string_of_list_ascii free_of].
  rewrite IH, text_char_ais; [reflexivity|].
  pose proof (group_bounds bits). lia.
Qed.

Lemma accumulated_n_length (n : nat) : forall bits,
  (String.length (accumulated_n n bits) <= n)%nat.
Proof.
  unfold accumulated_n.
  induction n as [|n IH]; intros bits; [simpl; lia|].
  cbn [groups6 map until_zero].
  destruct (unsigned (firstn 6 bits) =? 0); [simpl; lia|].
  cbn [map string_of_list_ascii String.length].
  specialize (IH (skipn 6 bits)). lia.
Qed.

Lemma lstrip_head (p : ascii -> bool) (s : string) :
  match lstrip p s with
  | String c _ => p c = false
  | EmptyString => True
  end.
Proof.
  induction s as [|c s IH]; simpl; [exact I|].
  destruct (p c) eqn:E; [exact IH | exact E].
Qed.

Lemma rstrip_head (p : ascii -> bool) (s : string) :
  match rstrip p s with
  | String c _ => exists s', s = String c s'
  | EmptyString => True
  end.
Proof.
  destruct s as [|c s]; simpl; [exact I|].
  destruct (rstrip p s); [destruct (p c)|]; simpl; eauto.
Qed.

Lemma strip_head (p : ascii -> bool) (s : string) :
  match strip p s with
  | String c _ => p c = false
  | EmptyString => True
  end.
Proof.
  unfold strip. pose proof (rstrip_head p (lstrip p s)) as H.
  pose proof (lstrip_head p s) as H'.
  destruct (rstrip p (lstrip p s)) as [|c r]; [exact I|].
  destruct H as [s' E]. rewrite E in H'. exact H'.
Qed.

(** X13: the text [decode_string] returns for a bit sequence consists of
    characters with codes from 32 to 95 other than ["@"], has at most one
    character for each group of six bits, begun or complete, and does not
    start with a space. *)
Theorem decoded_text_alphabet (bits : BitString) :
  exists text,
    decode_string (bits_text bits) = Ok text
    /\ free_of (fun c => negb (ais_text_char c)) text = true
    /\ (String.length text <= (List.length bits + 5) / 6)%nat
    /\ startswith text " " = false.
Proof.
  exists (bits_to_text bits). split; [apply decode_string_bits|].
  unfold bits_to_text, accumulated, groups.
  fold (accumulated_n ((List.length bits + 5) / 6) bits).
  set (n := ((List.length bits + 5) / 6)%nat).
  split; [|split].
  - apply strip_free, rstrip_free, accumulated_n_ais.
  - pose proof (strip_length is_py_space
                  (rstrip (Ascii.eqb "@") (accumulated_n n bits))).
    pose proof (rstrip_length (Ascii.eqb "@") (accumulated_n n bits)).
    pose proof (accumulated_n_length n bits). lia.
  - pose proof (strip_head is_py_space
                  (rstrip (Ascii.eqb "@") (accumulated_n n bits))) as H.
    destruct (strip is_py_space
                (rstrip (Ascii.eqb "@") (accumulated_n n bits))) as [|c r];
      [reflexivity|].
    cbn [startswith]. destruct (Ascii.eqb_spec c " ") as [->|]; [|reflexivity].
    discriminate H.
Qed.

Lemma groups6_app (k : nat) : forall (pre x : BitString) (m : nat),
  List.length pre = (6 * k)%nat ->
  groups6 (k + m) (pre ++ x)%list = (groups6 k pre ++ groups6 m x)%list.
Proof.
  induction k as [|k IH]; intros pre x m H.
  - destruct pre; [reflexivity | discriminate H].
  - cbn [Nat.add groups6].
    rewrite firstn_app, skipn_app.
    replace (6 - List.length pre)%nat with 0%nat by lia.
    rewrite firstn_O, skipn_O, app_nil_r.
    rewrite IH by (rewrite length_skipn; lia). reflexivity.
Qed.

Lemma until_zero_app (A B : list Z) :
  until_zero (A ++ 0 :: B)%list = until_zero A.
Proof.
  induction A as [|a A IH]; [reflexivity|].
  cbn [app until_zero]. destruct (a =? 0); [reflexivity | now rewrite IH].
Qed.

Lemma accumulated_zero_group (pre rest : BitString) (k : nat) :
  List.length pre = (6 * k)%nat ->
  accumulated (pre ++ repeat false 6 ++ rest)%list = accumulated pre.
Proof.
  intros H. unfold accumulated, groups.
  rewrite !length_app, repeat_length, H.
  replace ((6 * k + (6 + List.length rest) + 5) / 6)%nat
    with (k + S ((List.length rest + 5) / 6))%nat.
  2:{ pose proof (Nat.div_mod_eq (List.length rest + 5) 6).
      pose proof (Nat.mod_upper_bound (List.length rest + 5) 6).
      pose proof (Nat.div_mod_eq (6 * k + (6 + List.length rest) + 5) 6).
      pose proof (Nat.mod_upper_bound (6 * k + (6 + List.length rest) + 5) 6).
      lia. }
  replace ((6 * k + 5) / 6)%nat with k.
  2:{ pose proof (Nat.div_mod_eq (6 * k + 5) 6).
      pose proof (Nat.mod_upper_bound (6 * k + 5) 6). lia. }
  rewrite (groups6_app k pre _ _ H). cbn [groups6].
  change (firstn 6 (repeat false 6 ++ rest)%list) with (repeat false 6).
  rewrite map_app. cbn [map].
  change (unsigned (repeat false 6)) with 0.
  now rewrite until_zero_app.
Qed.

(** X14: in a bit sequence, what follows a six-bit group of zeros that
    starts at a multiple of six does not reach the text: [decode_string]
    returns the text of the bits before that group. *)
Theorem zero_group_ends_text (pre rest : BitString) (k : nat) :
  List.length pre = (6 * k)%nat ->
  decode_string (bits_text (pre ++ repeat false 6 ++ rest)%list)
  = decode_string (bits_text pre).
Proof.
  intros H. rewrite !decode_string_bits. unfold bits_to_text.
  now rewrite (accumulated_zero_group pre rest k H).
Qed.

Lemma zero_group_ends_text_witness :
  decode_string (bits_text (bits6 1 ++ repeat false 6 ++ bits6 2)%list)
  = decode_string (bits_text (bits6 1)).
Proof. exact (zero_group_ends_text (bits6 1) (bits6 2) 1 eq_refl). Defined.

End Texts.

(** ** Texts written as six-bit groups and read back *)

Section TextRoundTrip.

Lemma ais_text_char_ord (c : ascii) :
  ais_text_char c = true -> 32 <= ord c <= 95 /\ ord c <> 64.
Proof.
  unfold ais_text_char. intros H.
  apply andb_true_iff in H as [H Hat]. apply andb_true_iff in H as [H1 H2].
  apply Z.leb_le in H1, H2. split; [lia|].
  intros E. apply negb_true_iff, Ascii.eqb_neq in Hat. apply Hat.
  apply ord_inj. exact E.
Qed.

Lemma text_value_range (c : ascii) :
  ais_text_char c = true -> 0 < text_value c < 64.
Proof.
  intros H. apply ais_text_char_ord in H. unfold text_value.
  destruct (Z.ltb_spec (ord c) 64); lia.
Qed.

Lemma text_char_value (c : ascii) :
  ais_text_char c = true -> text_char (text_value c) = c.
Proof.
  intros H. apply ais_text_char_ord in H. unfold text_char, text_value.
  assert (E : forall v, v = ord c -> ascii_of_N (Z.to_N v) = c).
  { intros v ->. unfold ord. rewrite N2Z.id. apply ascii_N_embedding. }
  destruct (Z.ltb_spec (ord c) 64).
  - destruct (Z.ltb_spec (ord c) 32); [lia|]. now apply E.
  - destruct (Z.ltb_spec (ord c - 64) 32); [|lia]. apply E. lia.
Qed.

Lemma text_bits_length (s : string) :
  List.length (text_bits s) = (6 * String.length s)%nat.
Proof.
  induction s as [|c s IH]; [reflexivity|].
  cbn [text_bits String.length]. rewrite length_app, IH.
  cbn [bits6 map List.length]. lia.
Qed.

Lemma accumulated_n_text_bits (s : string) : forall (x : BitString) (m : nat),
  free_of (fun c => negb (ais_text_char c)) s = true ->
  accumulated_n (String.length s + m) (text_bits s ++ x)%list
  = s ++ accumulated_n m x.
Proof.
  induction s as [|c s IH]; intros x m H; [reflexivity|].
  cbn [free_of] in H. apply andb_true_iff in H as [Hc Hs].
  apply negb_true_iff, negb_false_iff in Hc.
  unfold accumulated_n in *.
  cbn [String.length Nat.add groups6 text_bits map].
  rewrite <- app_assoc.
  assert (E6 : List.length (bits6 (text_value c)) = 6%nat) by reflexivity.
  rewrite firstn_app, skipn_app, E6, Nat.sub_diag, firstn_O, skipn_O.
  rewrite app_nil_r.
  replace (firstn 6 (bits6 (text_value c))) with (bits6 (text_value c))
    by reflexivity.
  replace (skipn 6 (bits6 (text_value c))) with (@nil bool) by reflexivity.
  cbn [app until_zero].
  pose proof (text_value_range c Hc) as R.
  rewrite unsigned_bits6 by lia.
  destruct (Z.eqb_spec (text_value c) 0) as [E|E]; [lia|].
  cbn [map string_of_list_ascii append].
  rewrite (text_char_value c Hc), (IH x m Hs). reflexivity.
Qed.

Lemma accumulated_n_zeros (k : nat) :
  accumulated_n k (repeat false (6 * k)) = "".
Proof.
  destruct k as [|k]; [reflexivity|].
  replace (6 * S k)%nat with (6 + 6 * k)%nat by lia.
  unfold accumulated_n. cbn [groups6 map].
  rewrite repeat_app.
  replace (firstn 6 (repeat false 6 ++ repeat false (6 * k))%list)
    with (repeat false 6) by reflexivity.
  reflexivity.
Qed.

(** X15: a text of characters with codes from 32 to 95 other than ["@"]
    that has no white space at its ends, written as one six-bit group for
    each character (the code itself below 64, the code less 64 from 64 on)
    and followed by any number of all-zero groups, is read back unchanged by
    [decode_string]. *)
Theorem text_round_trip (s : string) (k : nat) :
  free_of (fun c => negb (ais_text_char c)) s = true ->
  strip is_py_space s = s ->
  decode_string (bits_text (text_bits s ++ repeat false (6 * k))%list) = Ok s.
Proof.
  intros Ha Hs. rewrite decode_string_bits. f_equal.
  unfold bits_to_text, accumulated, groups.
  rewrite length_app, text_bits_length, repeat_length.
  replace ((6 * String.length s + 6 * k + 5) / 6)%nat
    with (String.length s + k)%nat.
  2:{ pose proof (Nat.div_mod_eq (6 * String.length s + 6 * k + 5) 6).
      pose proof (Nat.mod_upper_bound (6 * String.length s + 6 * k + 5) 6).
      lia. }
  fold (accumulated_n (String.length s + k)
          (text_bits s ++ repeat false (6 * k))%list).
  rewrite (accumulated_n_text_bits s _ k Ha), accumulated_n_zeros,
    append_nil_r.
  rewrite rstrip_id_free; [exact Hs|].
  clear Hs. induction s as [|c s IH]; [reflexivity|].
  cbn [free_of] in *. apply andb_true_iff in Ha as [Hc Ha].
  rewrite (IH Ha), andb_true_r.
  apply negb_true_iff, negb_false_iff in Hc.
  unfold ais_text_char in Hc. apply andb_true_iff in Hc as [_ Hc].
  rewrite Ascii.eqb_sym. exact Hc.
Qed.

Lemma text_round_trip_witness :
  decode_string
    (bits_text (text_bits "MT.MITCHELL 7" ++ repeat false (6 * 3))%list)
  = Ok "MT.MITCHELL 7".
Proof. exact (text_round_trip "MT.MITCHELL 7" 3 eq_refl eq_refl). Defined.

End TextRoundTrip.

(** ** Sentences put together and parsed *)

Section Sentences.

Lemma count_char_append (c : ascii) (s t : string) :
  count_char c (s ++ t) = (count_char c s + count_char c t)%nat.
Proof.
  induction s as [|c' s IH]; [reflexivity|].
  cbn [append count_char]. rewrite IH. lia.
Qed.

Lemma before_append (c : ascii) (s t : string) :
  count_char c s = 0%nat -> before c (s ++ String c t) = s.
Proof.
  induction s as [|c' s IH]; cbn [append before count_char].
  - now rewrite Ascii.eqb_refl.
  - destruct (Ascii.eqb c' c); [discriminate|]. intros H. now rewrite IH.
Qed.

Lemma after_append (c : ascii) (s t : string) :
  count_char c s = 0%nat -> after c (s ++ String c t) = t.
Proof.
  induction s as [|c' s IH]; cbn [append after count_char].
  - now rewrite Ascii.eqb_refl.
  - destruct (Ascii.eqb c' c); [discriminate|]. intros H. now rewrite IH.
Qed.







Lemma well_formed_ext (l1 l2 : string) :
  startswith l1 "!" = startswith l2 "!" ->
  count_char "*" l1 = count_char "*" l2 ->
  fields_of l1 = fields_of l2 ->
  well_formed l1 = well_formed l2.
Proof.
  intros H1 H2 H3. unfold well_formed, field. now rewrite H1, H2, H3.
Qed.

(** X17: the checksum is copied and never verified: if a line with a given
    body and checksum is parsed, the parsed sentence holds that checksum
    text, and the same body with any other checksum text is parsed into the
    same sentence with only the entry ["checksum"] changed. *)
Theorem checksum_not_verified (body cs cs' : string) (parsed : dict) :
  count_char "*" body = 0%nat ->
  count_char "*" cs = 0%nat ->
  count_char "*" cs' = 0%nat ->
  parse_nmea (body ++ String "*" cs) = Some parsed ->
  get parsed "checksum" = Some (VStr cs)
  /\ parse_nmea (body ++ String "*" cs')
     = Some (set parsed "checksum" (VStr cs')).
Proof.
  intros Hb Hc Hc' H.
  set (l1 := body ++ String "*" cs) in *.
  set (l2 := body ++ String "*" cs').
  assert (F : fields_of l1 = fields_of l2).
  { unfold fields_of, l1, l2. now rewrite !before_append. }
  assert (E : well_formed l1 = well_formed l2).
  { apply well_formed_ext; [|unfold l1, l2; rewrite !count_char_append;
                              cbn [count_char]; lia | exact F].
    unfold l1, l2. destruct body; reflexivity. }
  assert (W : well_formed l1 = true).
  { destruct (well_formed l1) eqn:W; [reflexivity|].
    apply parse_nmea_none in W. congruence. }
  destruct (parse_nmea_well_formed l1 W)
    as (fc & fn & fb & I1 & I2 & I6 & P1).
  rewrite E in W.
  destruct (parse_nmea_well_formed l2 W)
    as (fc' & fn' & fb' & I1' & I2' & I6' & P2).
  unfold field in *. rewrite <- F in I1', I2', I6'.
  assert (fc' = fc) by congruence. assert (fn' = fn) by congruence.
  assert (fb' = fb) by congruence. subst fc' fn' fb'.
  rewrite P1 in H. injection H as <-. rewrite P2.
  unfold sentence, raw_fields, field. rewrite <- F.
  replace (after "*" l1) with cs by (symmetry; now apply after_append).
  replace (after "*" l2) with cs' by (symmetry; now apply after_append).
  destruct (attached (nth 5 (fields_of l1) "")); split; reflexivity.
Qed.

Lemma checksum_not_verified_witness :
  get (sentence sample_line 1 1 0) "checksum" = Some (VStr "5C")
  /\ parse_nmea
       ("!AIVDM,1,1,,A,15M67FC000G?ufbE`FepT@3n00Sa,0" ++ String "*" "00")
     = Some (set (sentence sample_line 1 1 0) "checksum" (VStr "00")).
Proof.
  apply (checksum_not_verified
           "!AIVDM,1,1,,A,15M67FC000G?ufbE`FepT@3n00Sa,0" "5C" "00");
    vm_compute; reflexivity.
Defined.

End Sentences.

(** ** The dispatch on the first character *)

Section Dispatch.

(** X18: when the first character of a payload maps into [0, 63], the
    message type read from the binary text is the value of that character,
    whatever follows it. *)
Theorem message_type_of_first_character (c : ascii) (rest : string) :
  in_range c = true ->
  int_field (armor_to_bits (String c rest)) 0 6 = Ok (sixbit c).
Proof.
  intros H. apply in_range_spec in H.
  rewrite armor_to_bits_cons, (format_06b_bits6 _ H).
  unfold int_field. rewrite slice_append_l
    by (rewrite bits_text_length; cbn [bits6 map List.length]; lia).
  fold (int_field (bits_text (bits6 (sixbit c))) 0 6).
  rewrite int_field_bits by lia.
  cbn [bits6 map List.length Nat.ltb Nat.leb].
  f_equal. now apply unsigned_bits6.
Qed.

Lemma message_type_of_first_character_witness :
  int_field (armor_to_bits (String "H" "/")) 0 6 = Ok (sixbit "H").
Proof. exact (message_type_of_first_character "H" "/" eq_refl). Defined.

(** X19: [decode_payload] does not fail on a payload over the armoring
    alphabet of 45 characters or more, the length of the longest layout,
    whatever its message type. *)
Theorem long_payload_decoded (payload : string) :
  valid_payload payload = true ->
  (45 <= String.length payload)%nat ->
  exists d, decode_payload payload = Some d.
Proof.
  intros Hv Hlen. unfold decode_payload.
  destruct (try_except (decode_binary (armor_to_bits payload))) as [d|] eqn:E;
    [now exists d|].
  exfalso. rewrite (armor_valid _ Hv) in E.
  assert (Ht : int_field (bits_text (payload_bits payload)) 0 6
               = Ok (unsigned (bit_range (payload_bits payload) 0 6))).
  { rewrite int_field_bits by lia.
    replace (0 <? List.length (payload_bits payload))%nat with true;
      [reflexivity|].
    symmetry. apply Nat.ltb_lt. rewrite payload_bits_length. lia. }
  apply (decode_binary_bits _ _ Ht) in E.
  rewrite payload_bits_length in E.
  assert (B : (last_field_start (payload_bits payload)
                 (unsigned (bit_range (payload_bits payload) 0 6))
               <= 264)%nat).
  { unfold last_field_start.
    repeat match goal with
           | |- context [if ?b then _ else _] => destruct b
           end; lia. }
  lia.
Qed.

Lemma long_payload_decoded_witness :
  exists d,
    decode_payload "w00000000000000000000000000000000000000000000" = Some d.
Proof.
  apply (long_payload_decoded
           "w00000000000000000000000000000000000000000000" eq_refl).
  vm_compute. lia.
Defined.

End Dispatch.
